(** * PYSCSES: [Set_of_Sites] (project/set_of_sites.py)

    A shallow embedding of the class [Set_of_Sites]: concatenation,
    indexing, iteration, selection by label, and the four aggregation
    methods that scatter per-site values onto a one-dimensional grid.

    Python floats and float64 array elements are IEEE 754 binary64 numbers:
    Rocq's primitive [float].  numpy arrays are mutable objects, so they live
    in a heap and are passed by reference; the aggregation methods run in a
    state-and-exception monad over that heap.

    The layout of the file decides what the class holds.  The statement
    [def form_continuum_sites_new] on line 143 starts at column 0 and ends
    the body of the class; the three defs under [@ classmethod] below it
    (lines 158 to 200) are indented as statements of that function and stand
    after its [return].  [Layout] records the columns, and the attributes of
    the class are computed from them.  The first of the three defs,
    [set_of_sites_from_input_data], is embedded in
    [Module form_continuum_sites_new] as the function its def statement
    describes; no run of the program creates that function.  The
    continuum-site constructors, [mirrored_set_of_sites_from_input_data] and
    [core_width_analysis] are not embedded. *)

From Stdlib Require Import Floats ZArith Lia.
From stdpp Require Import base option list strings.

Set Warnings "-inexact-float".

(** ** Exceptions and outcomes *)

Inductive exn :=
| IndexError
| ValueError (msg : string)
| TypeError
| AttributeError
| InvalidRef. (* a reference the heap does not hold; no well-formed call raises it *)

Inductive outcome (A : Type) :=
| Ok (a : A)
| Raise (e : exn).
Arguments Ok {A} a.
Arguments Raise {A} e.

Class Monad (m : Type -> Type) := {
  ret : forall {A}, A -> m A;
  bind : forall {A B}, m A -> (A -> m B) -> m B
}.

Notation "x <- c ;; k" := (bind c (fun x => k))
  (at level 100, c at next level, right associativity).
Notation "c ;; k" := (bind c (fun _ => k))
  (at level 100, right associativity).

#[export] Instance outcome_monad : Monad outcome := {
  ret := fun A a => Ok a;
  bind := fun A B o k => match o with Ok a => k a | Raise e => Raise e end
}.

(** ** numpy arrays as values *)

(** Arrays of dimension 0 and 1 are all the methods meet.  Coordinates,
    volumes, potentials and the arrays allocated like them hold float64
    numbers. *)
Inductive ndarray :=
| Nd0 (item : float)
| Nd1 (items : list float).

Inductive shape :=
| Scalar
| Vector (n : nat).

Definition np_shape (a : ndarray) : shape :=
  match a with
  | Nd0 _ => Scalar
  | Nd1 xs => Vector (length xs)
  end.

Definition np_zeros (s : shape) : ndarray :=
  match s with
  | Scalar => Nd0 0%float
  | Vector n => Nd1 (replicate n 0%float)
  end.

(** [np.asarray] of a Python list of floats. *)
Definition np_asarray (l : list float) : ndarray := Nd1 l.

Definition np_map (f : float -> float) (a : ndarray) : ndarray :=
  match a with
  | Nd0 y => Nd0 (f y)
  | Nd1 ys => Nd1 (map f ys)
  end.

(** [a / d] and [x + a] for an array [a] and scalars [d], [x]: elementwise. *)
Definition np_truediv (a : ndarray) (d : float) : ndarray :=
  np_map (fun y => (y / d)%float) a.

Definition np_radd (x : float) (a : ndarray) : ndarray :=
  np_map (fun y => (x + y)%float) a.

(** Position addressed by the integer index [i] in a sequence of length [n]:
    a negative index counts from the end. *)
Definition slot (n : nat) (i : Z) : option nat :=
  if (0 <=? i)%Z then
    if (i <? Z.of_nat n)%Z then Some (Z.to_nat i) else None
  else
    if (- Z.of_nat n <=? i)%Z then Some (Z.to_nat (i + Z.of_nat n)) else None.

(** A value stored into one element must hold exactly one number. *)
Definition as_item (v : ndarray) : option float :=
  match v with
  | Nd0 y => Some y
  | Nd1 [y] => Some y
  | Nd1 _ => None
  end.

Definition setting_with_a_sequence : exn :=
  ValueError "setting an array element with a sequence.".

(** [a[i]] *)
Definition getitem_nd (a : ndarray) (i : Z) : outcome float :=
  match a with
  | Nd0 _ => Raise IndexError
  | Nd1 xs =>
      match slot (length xs) i with
      | None => Raise IndexError
      | Some k =>
          match xs !! k with
          | Some y => Ok y
          | None => Raise IndexError
          end
      end
  end.

(** [a[i] = v]: the contents of [a] afterwards. *)
Definition setitem_nd (a : ndarray) (i : Z) (v : ndarray) : outcome ndarray :=
  match a with
  | Nd0 _ => Raise IndexError
  | Nd1 xs =>
      match slot (length xs) i with
      | None => Raise IndexError
      | Some k =>
          match as_item v with
          | Some y => Ok (Nd1 (<[k := y]> xs))
          | None => Raise setting_with_a_sequence
          end
      end
  end.

(** ** The heap of arrays *)

Abbreviation loc := nat.
Abbreviation heap := (list ndarray).

Definition M (A : Type) : Type := heap -> outcome A * heap.

#[export] Instance M_monad : Monad M := {
  ret := fun A a h => (Ok a, h);
  bind := fun A B m k h =>
    match m h with
    | (Ok a, h') => k a h'
    | (Raise e, h') => (Raise e, h')
    end
}.

Definition lift {A} (o : outcome A) : M A := fun h => (o, h).

Definition alloc (a : ndarray) : M loc := fun h => (Ok (length h), h ++ [a]).

Definition load (l : loc) : M ndarray :=
  fun h => match h !! l with
           | Some a => (Ok a, h)
           | None => (Raise InvalidRef, h)
           end.

Definition store (l : loc) (a : ndarray) : M unit :=
  fun h => (Ok tt, <[l := a]> h).

Definition getitem (l : loc) (i : Z) : M float :=
  a <- load l ;; lift (getitem_nd a i).

Definition setitem (l : loc) (i : Z) (v : ndarray) : M unit :=
  a <- load l ;; a' <- lift (setitem_nd a i v) ;; store l a'.

(** [np.zeros_like(a)] for an array [a]: a fresh array of zeros of its shape. *)
Definition np_zeros_like (l : loc) : M loc :=
  a <- load l ;; alloc (np_zeros (np_shape a)).

(** [for x in xs: body] *)
Fixpoint for_each {A} (xs : list A) (body : A -> M unit) : M unit :=
  match xs with
  | [] => ret tt
  | x :: xs' => body x ;; for_each xs' body
  end.

(** ** The collaborators *)

Module Site.
(** Modelled from the spec: the class Site (project/site.py is not among the
    sources).  A site has a label, a position, its energy record, and a
    method [probabilities(potential, temperature)] returning one probability
    per defect-energy entry; it is immutable after construction. *)
Record t := mk {
  label : string;
  x : float;
  defect_energies : list float;
  probabilities : float -> float -> list float
}.
End Site.

Module Grid.
(** Modelled from the spec: the class Grid (project/grid.py is not among the
    sources).  A grid holds the array [x] of gridpoint coordinates and the
    array [volumes] of cell volumes, both by reference. *)
Record t := mk {
  x : loc;
  volumes : loc
}.
End Grid.

Record Set_of_Sites := mk_Set_of_Sites { sites : list Site.t }.

(** Python values that may stand to the right of [+]. *)
Inductive pyobj :=
| PySet_of_Sites (s : Set_of_Sites)
| PySubclassInstance (cls : string) (s : Set_of_Sites)
| PyList (l : list Site.t)
| PyTuple (l : list Site.t)
| PyFloat (f : float)
| PyStr (s : string)
| PyNone.

(** [type(o) is Set_of_Sites]: the exact class, not a subclass. *)
Definition type_is_Set_of_Sites (o : pyobj) : bool :=
  match o with
  | PySet_of_Sites _ => true
  | _ => false
  end.

(** [isinstance(o, Set_of_Sites)] *)
Definition isinstance_Set_of_Sites (o : pyobj) : bool :=
  match o with
  | PySet_of_Sites _ | PySubclassInstance _ _ => true
  | _ => false
  end.

(** [o.sites] *)
Definition getattr_sites (o : pyobj) : outcome (list Site.t) :=
  match o with
  | PySet_of_Sites s | PySubclassInstance _ s => Ok (sites s)
  | _ => Raise AttributeError
  end.

(** ** The collection *)

(** [Set_of_Sites.__add__]: "Allows the concatenation of multiple
    Set_of_Sites objects".  [s + other] calls it first for every [other]
    whose class is not a subclass of the class of [s], and the exception it
    raises ends the evaluation of [+]. *)
Definition __add__ (self : Set_of_Sites) (other : pyobj) : outcome Set_of_Sites :=
  if negb (type_is_Set_of_Sites other) then Raise TypeError
  else
    other_sites <- getattr_sites other ;;
    ret (mk_Set_of_Sites (sites self ++ other_sites)).

(** [Set_of_Sites.subset]: the sites which contain a particular defect. *)
Definition subset (self : Set_of_Sites) (label : string) : list Site.t :=
  filter (fun s => Site.label s = label) (sites self).

(** [Set_of_Sites.get_coords]:
    [[ s.x for s in self.sites if s.label == label ]]. *)
Definition get_coords (self : Set_of_Sites) (label : string) : list float :=
  map Site.x (filter (fun s => Site.label s = label) (sites self)).

(** [Set_of_Sites.__getitem__] for an integer index: [self.sites[ index ]],
    where a negative index counts from the end of the list. *)
Definition __getitem__ (self : Set_of_Sites) (index : Z) : outcome Site.t :=
  match slot (length (sites self)) index with
  | Some k =>
      match sites self !! k with
      | Some site => Ok site
      | None => Raise IndexError
      end
  | None => Raise IndexError
  end.

(** [Set_of_Sites.__iter__]: the sites that [iter( self.sites )] yields, in
    order. *)
Definition __iter__ (self : Set_of_Sites) : list Site.t := sites self.

(** ** The layout of the module *)

Module Layout.

(** The statements of the file that open a scope or leave one: [class],
    [def] (alone, or under the decorator [@ classmethod]) and [return]. *)
Inductive statement :=
| Class (name : string)
| Def (name : string)
| ClassmethodDef (name : string)
| Return.

(** A statement with the line it starts on and the column it starts at. *)
Record line := at_line { number : nat; column : nat; stmt : statement }.

(** [project/set_of_sites.py].  Every line of the file is indented with
    spaces.  Line 153 is read with the closing parenthesis it lacks. *)
Definition set_of_sites_py : list line :=
  [ at_line 11 0 (Class "Set_of_Sites");
    at_line 13 4 (Def "__init__");
    at_line 16 4 (Def "__add__");
    at_line 20 8 Return;
    at_line 22 4 (Def "__getitem__");
    at_line 24 8 Return;
    at_line 26 4 (Def "__iter__");
    at_line 30 8 Return;
    at_line 32 4 (Def "subset");
    at_line 34 8 Return;
    at_line 36 4 (Def "get_coords");
    at_line 38 8 Return;
    at_line 40 4 (Def "calculate_energies_on_grid");
    at_line 55 8 Return;
    at_line 57 4 (Def "calculate_probabilities");
    at_line 73 8 Return;
    at_line 75 4 (Def "calculate_defect_density");
    at_line 92 8 Return;
    at_line 94 4 (Def "subgrid_calculate_defect_density");
    at_line 112 8 Return;
    at_line 115 4 (Def "form_continuum_sites");
    at_line 141 8 Return;
    at_line 143 0 (Def "form_continuum_sites_new");
    at_line 155 4 Return;
    at_line 158 4 (ClassmethodDef "set_of_sites_from_input_data");
    at_line 172 8 Return;
    at_line 174 4 (ClassmethodDef "mirrored_set_of_sites_from_input_data");
    at_line 180 4 (ClassmethodDef "core_width_analysis");
    at_line 200 8 Return ].

(** The name a statement binds in the scope that runs it. *)
Definition binds (s : statement) : option string :=
  match s with
  | Class name | Def name | ClassmethodDef name => Some name
  | Return => None
  end.

(** The suite of a compound statement whose header starts at column [c]:
    the lines below the header, as far as they are indented deeper. *)
Fixpoint suite (c : nat) (below : list line) : list line :=
  match below with
  | [] => []
  | l :: below' => if (c <? column l)%nat then l :: suite c below' else []
  end.

(** The suite of the [class] or [def] statement that binds [name]. *)
Fixpoint suite_of (name : string) (src : list line) : list line :=
  match src with
  | [] => []
  | l :: below =>
      if decide (binds (stmt l) = Some name) then suite (column l) below
      else suite_of name below
  end.

(** The statements of a suite itself, not those nested in them: the lines at
    the column of its first line. *)
Definition statements (body : list line) : list line :=
  match body with
  | [] => []
  | first :: _ => filter (fun l => column l = column first) body
  end.

(** The names bound when the statements run in order: [class] and [def]
    bind theirs, and [return] leaves, so that nothing below it runs. *)
Fixpoint bound_by (stmts : list line) : list string :=
  match stmts with
  | [] => []
  | l :: stmts' =>
      match binds (stmt l) with
      | Some name => name :: bound_by stmts'
      | None => []
      end
  end.

(** The names that the body of [name] binds when it runs: for a class its
    attributes, bound when the [class] statement runs; for a function the
    functions it defines during a call. *)
Definition namespace_of (name : string) (src : list line) : list string :=
  bound_by (statements (suite_of name src)).

(** The classes and functions that the module binds when it is imported. *)
Definition defined_by_module (src : list line) : list string :=
  bound_by (statements src).

End Layout.

(** [Set_of_Sites.name], for a name that [object] and [type] do not provide:
    the function that the body of the class binds to the name, or
    AttributeError. *)
Definition getattr_Set_of_Sites (name : string) : outcome string :=
  if decide (name ∈ Layout.namespace_of "Set_of_Sites" Layout.set_of_sites_py)
  then Ok name
  else Raise AttributeError.

(** [Set_of_Sites.name( arguments )]: the attribute is looked up first, and
    the function found is called.  [function] says what the functions of
    the class do when they are called. *)
Definition call_on_Set_of_Sites {arguments result : Type}
    (function : string -> arguments -> outcome result)
    (name : string) (a : arguments) : outcome result :=
  f <- getattr_Set_of_Sites name ;;
  function f a.

Module Call.
(** The arguments of a call
    [set_of_sites_from_input_data( input_data, limits, defect_species,
    site_charge, core, temperature, offset )]. *)
Record arguments (input_t species_t charge_t : Type) := mk {
  input_data : input_t;
  limits : list float;
  defect_species : species_t;
  site_charge : charge_t;
  core : string;
  temperature : float;
  offset : float
}.
Arguments mk {input_t species_t charge_t}.
End Call.

(** ** Loops that write one array *)

(** What one iteration does to the contents of the array written. *)
Definition step := Site.t -> ndarray -> outcome ndarray.

Fixpoint run_steps (f : step) (ss : list Site.t) (a : ndarray) : outcome unit * ndarray :=
  match ss with
  | [] => (Ok tt, a)
  | s :: ss' =>
      match f s a with
      | Ok a' => run_steps f ss' a'
      | Raise e => (Raise e, a)
      end
  end.

(** A body refines a step on the heaps that satisfy [P] when it changes the
    array at [out] as the step says and leaves the rest as it is. *)
Definition refines (P : heap -> Prop) (out : loc) (body : Site.t -> M unit) (f : step) : Prop :=
  forall s h a, P h -> h !! out = Some a ->
    body s h = match f s a with
               | Ok a' => (Ok tt, <[out := a']> h)
               | Raise e => (Raise e, h)
               end.

(** What a method returns, from what its loop did. *)
Definition finish (out : loc) (r : outcome unit) : outcome loc :=
  match r with
  | Ok _ => Ok out
  | Raise e => Raise e
  end.

(** ** The aggregation methods *)

(** Unary plus on a float. *)
Definition pos (v : float) : float := v.

Section Aggregation.

(** The grid-alignment functions of project/grid.py (not among the
    sources) are parameters.  They are pure and read the arrays they are
    handed; [index_of_grid_at_x] returns a Python integer. *)
Variable index_of_grid_at_x : ndarray -> float -> Z.
Variable phi_at_x : ndarray -> ndarray -> float -> float.
Variable energy_at_x : list float -> ndarray -> float -> float.

(** The shape numpy gives to a Grid object itself when asked to convert it
    to an array; it depends on the class Grid. *)
Variable np_shape_of_grid : Grid.t -> shape.

(** [Set_of_Sites.calculate_energies_on_grid]: the array is allocated with
    [np.zeros_like( grid )] and each site's energy is stored with [=+], the
    assignment of [+value]. *)
Definition calculate_energies_on_grid
    (self : Set_of_Sites) (grid : Grid.t) (phi : loc) : M loc :=
  energies_on_grid <- alloc (np_zeros (np_shape_of_grid grid)) ;;
  for_each (sites self) (fun site =>
    gx <- load (Grid.x grid) ;;
    setitem energies_on_grid (index_of_grid_at_x gx (Site.x site))
      (Nd0 (pos (energy_at_x (Site.defect_energies site) gx (Site.x site))))) ;;
  ret energies_on_grid.

(** [Set_of_Sites.calculate_probabilities]: the array is allocated with
    [np.zeros_like( grid.x )] and each site's probability is stored with [=]. *)
Definition calculate_probabilities
    (self : Set_of_Sites) (grid : Grid.t) (phi : loc) (temp : float) : M loc :=
  probability <- np_zeros_like (Grid.x grid) ;;
  for_each (sites self) (fun site =>
    gx <- load (Grid.x grid) ;;
    ph <- load phi ;;
    setitem probability (index_of_grid_at_x gx (Site.x site))
      (np_asarray (Site.probabilities site (phi_at_x ph gx (Site.x site)) temp))) ;;
  ret probability.

(** [Set_of_Sites.calculate_defect_density]: the index [i] is computed once,
    and [defect_density[ i ] += ... / grid.volumes[ i ]] reads the entry,
    evaluates the right-hand side, adds and stores. *)
Definition calculate_defect_density
    (self : Set_of_Sites) (grid : Grid.t) (phi : loc) (temp : float) : M loc :=
  defect_density <- np_zeros_like (Grid.x grid) ;;
  for_each (sites self) (fun site =>
    gx <- load (Grid.x grid) ;;
    let i := index_of_grid_at_x gx (Site.x site) in
    old <- getitem defect_density i ;;
    ph <- load phi ;;
    vol <- getitem (Grid.volumes grid) i ;;
    setitem defect_density i
      (np_radd old
         (np_truediv
            (np_asarray (Site.probabilities site (phi_at_x ph gx (Site.x site)) temp))
            vol))) ;;
  ret defect_density.

(** [Set_of_Sites.subgrid_calculate_defect_density]: as above, with the index
    and the volume taken from [sub_grid] and [phi_at_x] handed [full_grid.x]. *)
Definition subgrid_calculate_defect_density
    (self : Set_of_Sites) (sub_grid full_grid : Grid.t) (phi : loc) (temp : float)
    : M loc :=
  defect_density <- np_zeros_like (Grid.x sub_grid) ;;
  for_each (sites self) (fun site =>
    sx <- load (Grid.x sub_grid) ;;
    let i := index_of_grid_at_x sx (Site.x site) in
    old <- getitem defect_density i ;;
    ph <- load phi ;;
    fx <- load (Grid.x full_grid) ;;
    vol <- getitem (Grid.volumes sub_grid) i ;;
    setitem defect_density i
      (np_radd old
         (np_truediv
            (np_asarray (Site.probabilities site (phi_at_x ph fx (Site.x site)) temp))
            vol))) ;;
  ret defect_density.

(** *** The loops, array by array *)

(** One iteration of each loop, as a change of the output array, given the
    contents of the arrays the iteration reads. *)
Definition energies_step (gx : ndarray) : step :=
  fun site a =>
    setitem_nd a (index_of_grid_at_x gx (Site.x site))
      (Nd0 (pos (energy_at_x (Site.defect_energies site) gx (Site.x site)))).

Definition probability_step (gx ph : ndarray) (temp : float) : step :=
  fun site a =>
    setitem_nd a (index_of_grid_at_x gx (Site.x site))
      (np_asarray (Site.probabilities site (phi_at_x ph gx (Site.x site)) temp)).

(** [ix] are the coordinates the index is taken against, [px] those the
    potential is interpolated against, [vols] the volumes. *)
Definition density_step (ix px vols ph : ndarray) (temp : float) : step :=
  fun site a =>
    let i := index_of_grid_at_x ix (Site.x site) in
    old <- getitem_nd a i ;;
    vol <- getitem_nd vols i ;;
    setitem_nd a i
      (np_radd old
         (np_truediv
            (np_asarray (Site.probabilities site (phi_at_x ph px (Site.x site)) temp))
            vol)).

(** The position of an array of length [n] that site [s] is written to,
    the index being taken against the coordinates [gx]. *)
Definition nearest (gx : ndarray) (n : nat) (s : Site.t) : option nat :=
  slot n (index_of_grid_at_x gx (Site.x s)).

(** The sites written to position [k], in iteration order. *)
Definition sites_at (gx : ndarray) (n k : nat) (ss : list Site.t) : list Site.t :=
  filter (fun s => nearest gx n s = Some k) ss.

End Aggregation.

(** ** Records, and the def below the return of [form_continuum_sites_new] *)

Module Line.
(** Modelled from the spec: a record returned by [load_site_data]
    (project/set_up_calculation.py is not among the sources).  Records are
    positional; index 2 holds the coordinate and index 4 the energy. *)
Record t := mk {
  item0 : string;
  item1 : string;
  item2 : float;
  item3 : string;
  item4 : float;
  rest : list string
}.

(** [line[4] = v] *)
Definition set_item4 (line : t) (v : float) : t :=
  mk (item0 line) (item1 line) (item2 line) (item3 line) v (rest line).
End Line.

(** [min(xs)] on a list of floats: the first element that no later one is
    less than. *)
Definition py_min (xs : list float) : outcome float :=
  match xs with
  | [] => Raise (ValueError "min() arg is an empty sequence")
  | y :: ys => Ok (fold_left (fun m v => if (v <? m)%float then v else m) ys y)
  end.

(** [l[i]] on a Python list, for a literal index [i >= 0]. *)
Definition list_getitem {A} (l : list A) (i : nat) : outcome A :=
  match l !! i with
  | Some v => Ok v
  | None => Raise IndexError
  end.

(** The def statements that follow the [return] of
    [form_continuum_sites_new] (line 155) in its body.  A call of that
    function leaves at the return, or with an exception above it, before it
    reaches them, so the functions they describe are never created; what
    follows is the first of them as it is written. *)
Module form_continuum_sites_new.

Section Construction.

(** The readers of project/set_up_calculation.py and the constant of
    project/constants.py are parameters. *)
Variables input_t species_t charge_t : Type.
Variable load_site_data : input_t -> float -> float -> charge_t -> float -> list Line.t.
Variable site_from_input_file : Line.t -> species_t -> charge_t -> string -> float -> Site.t.
Variable boltzmann_eV : float.

(** The body of the first loop: [if line[4] > min_energy: line[4] = 0.0]. *)
Definition flatten_single (min_energy : float) (line : Line.t) : Line.t :=
  if (min_energy <? Line.item4 line)%float then Line.set_item4 line 0%float else line.

(** The body of the second loop:
    [if (-boltzmann_eV * temperature) <= line[4] <= (boltzmann_eV * temperature): line[4] = 0.0]. *)
Definition flatten_multi_site (temperature : float) (line : Line.t) : Line.t :=
  if ((- boltzmann_eV * temperature <=? Line.item4 line)%float
      && (Line.item4 line <=? boltzmann_eV * temperature)%float)%bool
  then Line.set_item4 line 0%float else line.

(** Lines 160 to 171 of that def: the records as they would stand when the
    sites are built from them. *)
Definition flattened_site_data
    (input_data : input_t) (limits : list float) (site_charge : charge_t)
    (core : string) (temperature offset : float) : outcome (list Line.t) :=
  lo <- list_getitem limits 0 ;;
  hi <- list_getitem limits 1 ;;
  let site_data := load_site_data input_data lo hi site_charge offset in
  let energies := map Line.item4 site_data in
  min_energy <- py_min energies ;;
  let site_data :=
    if String.eqb core "single" then map (flatten_single min_energy) site_data
    else site_data in
  let site_data :=
    if String.eqb core "multi_site" then map (flatten_multi_site temperature) site_data
    else site_data in
  ret site_data.

(** The def of lines 158 to 172, under [@ classmethod]: the function it
    would bind to [set_of_sites_from_input_data], without its parameter
    [cls], which the body does not use. *)
Definition set_of_sites_from_input_data
    (input_data : input_t) (limits : list float) (defect_species : species_t)
    (site_charge : charge_t) (core : string) (temperature offset : float)
    : outcome Set_of_Sites :=
  site_data <- flattened_site_data input_data limits site_charge core temperature offset ;;
  ret (mk_Set_of_Sites
         (map (fun line => site_from_input_file line defect_species site_charge core temperature)
              site_data)).

End Construction.

End form_continuum_sites_new.

(** ** Grid alignment, for the concrete scenarios *)

Module GridAlignment.

(** [bisect_left] on an ascending list: the number of leading elements
    less than [v]. *)
Fixpoint bisect_left (xs : list float) (v : float) : nat :=
  match xs with
  | [] => 0
  | y :: ys => if (y <? v)%float then S (bisect_left ys v) else 0
  end.

(** Modelled from the spec: [index_of_grid_at_x] (project/grid.py is not
    among the sources).  The insertion point is found by bisection and the
    nearer of its two neighbours is chosen, the lower one on a tie; a
    coordinate outside the grid gets the nearest boundary index. *)
Definition index_of_grid_at_x (grid_x : ndarray) (site_x : float) : Z :=
  match grid_x with
  | Nd0 _ => 0
  | Nd1 xs =>
      let pos := bisect_left xs site_x in
      match pos with
      | O => 0
      | S before =>
          match xs !! before, xs !! pos with
          | Some b, Some a =>
              if (a - site_x <? site_x - b)%float then Z.of_nat pos else Z.of_nat before
          | _, _ => Z.of_nat before
          end
      end
  end.

(** Modelled from the spec: [phi_at_x] (project/grid.py is not among the
    sources).  Linear interpolation of [phi] between the two gridpoints
    around [site_x], exact at a gridpoint, with the boundary value held
    outside the grid. *)
Definition phi_at_x (phi grid_x : ndarray) (site_x : float) : float :=
  match phi, grid_x with
  | Nd1 ps, Nd1 xs =>
      let pos := bisect_left xs site_x in
      match pos with
      | O => default 0%float (ps !! 0)
      | S before =>
          match xs !! before, xs !! pos, ps !! before, ps !! pos with
          | Some xb, Some xa, Some pb, Some pa =>
              if (xa =? site_x)%float then pa
              else (pb + (pa - pb) * ((site_x - xb) / (xa - xb)))%float
          | _, _, Some pb, _ => pb
          | _, _, _, _ => 0%float
          end
      end
  | Nd0 p, _ => p
  | _, _ => 0%float
  end.

(** Modelled from the spec: [energy_at_x] mirrors [phi_at_x], reading the
    site's own energy record instead of a grid-wide field. *)
Definition energy_at_x (defect_energies : list float) (grid_x : ndarray) (site_x : float)
    : float :=
  phi_at_x (Nd1 defect_energies) grid_x site_x.

End GridAlignment.

(** Modelled from the spec: a Grid object has attributes and is neither an
    array nor a sequence, so numpy converts it to a 0-dimensional array. *)
Definition plain_object_shape (g : Grid.t) : shape := Scalar.

(** ** Vocabulary of the statements *)

(** The number a site's [probabilities] call stores into one array element. *)
Definition the_probability (s : Site.t) (v temp : float) : float :=
  default 0%float (as_item (np_asarray (Site.probabilities s v temp))).

Definition one_probability (s : Site.t) (v temp : float) : Prop :=
  length (Site.probabilities s v temp) = 1.

(** Floats added from zero in the order given. *)
Definition sum_in_order (cs : list float) : float := fold_left PrimFloat.add cs 0%float.

(** Two runs of a method end alike: with the same exception, or each with a
    reference to an array of the same contents. *)
Definition same_output (r1 r2 : outcome loc * heap) : Prop :=
  match r1.1, r2.1 with
  | Ok o1, Ok o2 => exists a, r1.2 !! o1 = Some a /\ r2.2 !! o2 = Some a
  | Raise e1, Raise e2 => e1 = e2
  | _, _ => False
  end.

(** A call of [m] on the heap [h], and the same call again on the heap the
    first left: each heap extends the one before it, so every array that
    existed before a call holds what it held, and the two calls end alike. *)
Definition leaves_inputs_unchanged (m : M loc) (h : heap) : Prop :=
  h `prefix_of` (m h).2 /\
  (m h).2 `prefix_of` (m (m h).2).2 /\
  same_output (m h) (m (m h).2).

(** Only the energy (index 4) of [line'] may differ from [line]: it is the
    energy of [line] or 0.0. *)
Definition same_but_energy (line line' : Line.t) : Prop :=
  Line.item0 line' = Line.item0 line /\ Line.item1 line' = Line.item1 line /\
  Line.item2 line' = Line.item2 line /\ Line.item3 line' = Line.item3 line /\
  Line.rest line' = Line.rest line /\
  (Line.item4 line' = Line.item4 line \/ Line.item4 line' = 0%float).

(** [line'] is [line] with the energy 0.0 where [zeroed] holds of the energy
    of [line], and [line] itself elsewhere. *)
Definition flattened_by (zeroed : float -> bool) (line line' : Line.t) : Prop :=
  if zeroed (Line.item4 line)
  then Line.item4 line' = 0%float /\ same_but_energy line line'
  else line' = line.

(** The exception [min] raises when handed no element. *)
Definition raised_by_min_of_nothing (e : exn) : Prop := py_min [] = Raise e.

(** The def of [name] is a statement of the body of [outer] that no run of
    the body reaches: the body leaves through a [return] above it, so the
    name is not among those the body binds. *)
Definition defined_below_return (outer name : string) : Prop :=
  Some name ∈ map (fun l => Layout.binds (Layout.stmt l))
                  (Layout.statements (Layout.suite_of outer Layout.set_of_sites_py)) /\
  (name ∉ Layout.namespace_of outer Layout.set_of_sites_py).


(** * Scenarios *)

(** ** A grid of five points *)

Module Scenario.

(** [x = [0,1,2,3,4]], unit volumes, a zero potential: the arrays at
    references 0, 1 and 2. *)
Definition arrays : heap :=
  [ Nd1 [0; 1; 2; 3; 4]%float; Nd1 [1; 1; 1; 1; 1]%float; Nd1 [0; 0; 0; 0; 0]%float ].

Definition grid : Grid.t := Grid.mk 0 1.
Definition phi : loc := 2.

(** Two sites labelled A at 1.05 and 0.96, nearest to gridpoint 1.  Their
    energy records are flat at 0.3 and at 0.4. *)
Definition site_p (p : float) : Site.t :=
  Site.mk "A" 1.05%float (replicate 5 0.3%float) (fun _ _ => [p]).

Definition site_q (q : float) : Site.t :=
  Site.mk "A" 0.96%float (replicate 5 0.4%float) (fun _ _ => [q]).

Definition two_sites (p q : float) : Set_of_Sites :=
  mk_Set_of_Sites [site_p p; site_q q].

End Scenario.

(** ** A sub-grid of the five-point grid *)

Module SubScenario.

(** References 0, 1, 2: the full grid [x = [0,1,2,3,4]], its volumes, and the
    potential [[10,20,30,40,50]] on it.  References 3, 4: the sub-grid
    [x = [1,2,3]] and its volumes, all 2. *)
Definition arrays : heap :=
  [ Nd1 [0; 1; 2; 3; 4]%float; Nd1 [1; 1; 1; 1; 1]%float; Nd1 [10; 20; 30; 40; 50]%float;
    Nd1 [1; 2; 3]%float; Nd1 [2; 2; 2]%float ].

Definition full_grid : Grid.t := Grid.mk 0 1.
Definition sub_grid : Grid.t := Grid.mk 3 4.
Definition phi : loc := 2.

(** A site at 2.0 whose probability is a hundredth of the potential it is
    given: 0.3 with the potential read on the full grid. *)
Definition site : Site.t :=
  Site.mk "A" 2%float [0%float] (fun v _ => [(v / 100)%float]).

Definition two_sites : Set_of_Sites := mk_Set_of_Sites [site; site].

End SubScenario.

(** ** Records *)

Module Records.

Definition line_with (energy : float) : Line.t :=
  Line.mk "A" "1.0" 0%float "d" energy [].

(** Stand-ins for the readers: the records are given by their energies, and
    a site is read off a record's label, coordinate and energy. *)
Definition load (energies : list float)
    : unit -> float -> float -> unit -> float -> list Line.t :=
  fun _ _ _ _ _ => map line_with energies.

Definition read_site (line : Line.t) (_ _ : unit) (_ : string) (_ : float) : Site.t :=
  Site.mk (Line.item0 line) (Line.item2 line) [Line.item4 line] (fun _ _ => [1%float]).

Definition limits : list float := [-1; 1]%float.

(** The Boltzmann constant in eV/K. *)
Definition boltzmann_eV : float := 8.6173324e-5%float.

End Records.

(** ** Edge cases *)

Module EdgeScenario.

(** A grid without gridpoints: no index addresses an entry. *)
Definition no_gridpoints : heap := [ Nd1 []; Nd1 []; Nd1 [] ].

(** A site with two defect energies, whose [probabilities] returns two
    values. *)
Definition site_of_two_defects : Site.t :=
  Site.mk "A" 1.05%float [0.3; 0.4]%float (fun _ _ => [0.5; 0.25]%float).

(** An index function that answers -1 everywhere. *)
Definition index_minus_one (grid_x : ndarray) (site_x : float) : Z := (-1)%Z.

(** A Grid that numpy converts to a vector of five entries. *)
Definition vector_of_five (g : Grid.t) : shape := Vector 5.

End EdgeScenario.

(** * Proofs *)

(** ** The monad on the heap *)

Lemma bind_ok {A B} (m : M A) (k : A -> M B) h a h' :
  m h = (Ok a, h') -> (x <- m ;; k x) h = k a h'.
Proof. intros E. cbn. now rewrite E. Qed.

Lemma bind_raise {A B} (m : M A) (k : A -> M B) h e h' :
  m h = (Raise e, h') -> (x <- m ;; k x) h = (Raise e, h').
Proof. intros E. cbn. now rewrite E. Qed.

Lemma bind_ext {A B} (m : M A) (k1 k2 : A -> M B) h :
  (forall a h', k1 a h' = k2 a h') -> (x <- m ;; k1 x) h = (x <- m ;; k2 x) h.
Proof. intros E. cbn. destruct (m h) as [[a|e] h']; [apply E | reflexivity]. Qed.

Lemma bind_cong {A B} (m1 m2 : M A) (k : A -> M B) h :
  m1 h = m2 h -> (x <- m1 ;; k x) h = (x <- m2 ;; k x) h.
Proof. intros E. cbn. now rewrite E. Qed.

Lemma load_ok (l : loc) (h : heap) a : h !! l = Some a -> load l h = (Ok a, h).
Proof. intros E. unfold load. now rewrite E. Qed.

(** Runs a [load] at the head of the goal, given what the heap holds there. *)
Ltac exec_load H := rewrite (bind_ok _ _ _ _ _ (load_ok _ _ _ H)).

Lemma getitem_ok (l : loc) (i : Z) (h : heap) a :
  h !! l = Some a -> getitem l i h = (getitem_nd a i, h).
Proof.
  intros E. unfold getitem. exec_load E.
  reflexivity.
Qed.

Lemma setitem_ok (l : loc) (i : Z) (v : ndarray) (h : heap) a :
  h !! l = Some a ->
  setitem l i v h =
    match setitem_nd a i v with
    | Ok a' => (Ok tt, <[l := a']> h)
    | Raise e => (Raise e, h)
    end.
Proof.
  intros E. unfold setitem. exec_load E.
  cbn. unfold lift. now destruct (setitem_nd a i v).
Qed.

(** Writing the cell allocated last. *)
Lemma insert_fresh (h : heap) (a b : ndarray) : <[length h := b]> (h ++ [a]) = h ++ [b].
Proof.
  rewrite insert_app_r_alt by lia. now rewrite Nat.sub_diag.
Qed.

Lemma lookup_fresh (h : heap) (a : ndarray) : (h ++ [a]) !! length h = Some a.
Proof. rewrite lookup_app_r by lia. now rewrite Nat.sub_diag. Qed.

Lemma for_each_refines (P : heap -> Prop) (out : loc) body f :
  refines P out body f ->
  (forall h a', P h -> P (<[out := a']> h)) ->
  forall ss h a, P h -> h !! out = Some a ->
    for_each ss body h =
      (fst (run_steps f ss a), <[out := snd (run_steps f ss a)]> h).
Proof.
  intros Href Hpres ss. induction ss as [|s ss IH]; intros h a HP Hout.
  - cbn. now rewrite list_insert_id.
  - cbn [for_each run_steps]. cbn. rewrite (Href s h a HP Hout).
    destruct (f s a) as [a'|e].
    + rewrite (IH (<[out := a']> h) a').
      * now rewrite list_insert_insert_eq.
      * now apply Hpres.
      * apply list_lookup_insert_eq. now apply lookup_lt_Some in Hout.
    + cbn. now rewrite list_insert_id.
Qed.

(** ** The aggregation loops, array by array *)

Section AggregationFacts.

Variable index_of_grid_at_x : ndarray -> float -> Z.
Variable phi_at_x : ndarray -> ndarray -> float -> float.
Variable energy_at_x : list float -> ndarray -> float -> float.
Variable np_shape_of_grid : Grid.t -> shape.

Local Abbreviation energies_step := (energies_step index_of_grid_at_x energy_at_x).
Local Abbreviation probability_step := (probability_step index_of_grid_at_x phi_at_x).
Local Abbreviation density_step := (density_step index_of_grid_at_x phi_at_x).

Lemma method_run (body : Site.t -> M unit) (f : step) (P : heap -> Prop)
    (ss : list Site.t) (h : heap) (z : ndarray) :
  refines P (length h) body f ->
  (forall h' a', P h' -> P (<[length h := a']> h')) ->
  P (h ++ [z]) ->
  (for_each ss body ;; ret (length h)) (h ++ [z]) =
    (finish (length h) (fst (run_steps f ss z)), h ++ [snd (run_steps f ss z)]).
Proof.
  intros Href Hpres HP. cbn.
  rewrite (for_each_refines P (length h) body f Href Hpres ss (h ++ [z]) z HP
             (lookup_fresh h z)).
  rewrite insert_fresh. now destruct (fst (run_steps f ss z)).
Qed.

Lemma calculate_energies_on_grid_run self grid phi h gx :
  h !! Grid.x grid = Some gx ->
  calculate_energies_on_grid index_of_grid_at_x energy_at_x np_shape_of_grid self grid phi h =
    let z := np_zeros (np_shape_of_grid grid) in
    (finish (length h) (fst (run_steps (energies_step gx) (sites self) z)),
     h ++ [snd (run_steps (energies_step gx) (sites self) z)]).
Proof.
  intros Hgx. unfold calculate_energies_on_grid.
  assert (Hlt : Grid.x grid < length h) by (eapply lookup_lt_Some; eauto).
  rewrite (bind_ok _ _ h (length h) (h ++ [np_zeros (np_shape_of_grid grid)]))
    by reflexivity.
  apply (method_run _ (energies_step gx)
           (fun h' => h' !! Grid.x grid = Some gx)).
  - intros s h' a HP Hout.
    exec_load HP.
    now rewrite (setitem_ok _ _ _ _ _ Hout).
  - intros h' a' HP. rewrite list_lookup_insert_ne by lia. exact HP.
  - now rewrite lookup_app_l.
Qed.

Lemma np_zeros_like_ok (l : loc) (h : heap) a :
  h !! l = Some a -> np_zeros_like l h = (Ok (length h), h ++ [np_zeros (np_shape a)]).
Proof.
  intros E. unfold np_zeros_like. now exec_load E.
Qed.

Lemma calculate_probabilities_run self grid phi temp h gx ph :
  h !! Grid.x grid = Some gx -> h !! phi = Some ph ->
  calculate_probabilities index_of_grid_at_x phi_at_x self grid phi temp h =
    let z := np_zeros (np_shape gx) in
    (finish (length h) (fst (run_steps (probability_step gx ph temp) (sites self) z)),
     h ++ [snd (run_steps (probability_step gx ph temp) (sites self) z)]).
Proof.
  intros Hgx Hph. unfold calculate_probabilities.
  assert (Hlt : Grid.x grid < length h) by (eapply lookup_lt_Some; eauto).
  assert (Hlt' : phi < length h) by (eapply lookup_lt_Some; eauto).
  rewrite (bind_ok _ _ _ _ _ (np_zeros_like_ok _ _ _ Hgx)).
  apply (method_run _ (probability_step gx ph temp)
           (fun h' => h' !! Grid.x grid = Some gx /\ h' !! phi = Some ph)).
  - intros s h' a [HP1 HP2] Hout.
    exec_load HP1.
    exec_load HP2.
    now rewrite (setitem_ok _ _ _ _ _ Hout).
  - intros h' a' [HP1 HP2]. now rewrite !list_lookup_insert_ne by lia.
  - now rewrite !lookup_app_l.
Qed.

Lemma subgrid_calculate_defect_density_run self sub_grid full_grid phi temp h sx fx vols ph :
  h !! Grid.x sub_grid = Some sx -> h !! Grid.x full_grid = Some fx ->
  h !! Grid.volumes sub_grid = Some vols -> h !! phi = Some ph ->
  subgrid_calculate_defect_density index_of_grid_at_x phi_at_x
      self sub_grid full_grid phi temp h =
    let z := np_zeros (np_shape sx) in
    (finish (length h) (fst (run_steps (density_step sx fx vols ph temp) (sites self) z)),
     h ++ [snd (run_steps (density_step sx fx vols ph temp) (sites self) z)]).
Proof.
  intros Hsx Hfx Hvols Hph. unfold subgrid_calculate_defect_density.
  assert (Grid.x sub_grid < length h) by (eapply lookup_lt_Some; eauto).
  assert (Grid.x full_grid < length h) by (eapply lookup_lt_Some; eauto).
  assert (Grid.volumes sub_grid < length h) by (eapply lookup_lt_Some; eauto).
  assert (phi < length h) by (eapply lookup_lt_Some; eauto).
  rewrite (bind_ok _ _ _ _ _ (np_zeros_like_ok _ _ _ Hsx)).
  apply (method_run _ (density_step sx fx vols ph temp)
           (fun h' => h' !! Grid.x sub_grid = Some sx /\ h' !! Grid.x full_grid = Some fx /\
                      h' !! Grid.volumes sub_grid = Some vols /\ h' !! phi = Some ph)).
  - intros s h' a (HP1 & HP2 & HP3 & HP4) Hout. unfold density_step.
    exec_load HP1.
    destruct (getitem_nd a _) as [old|e] eqn:Eold.
    2:{ rewrite (bind_raise _ _ h' e h'); [reflexivity|].
        rewrite (getitem_ok _ _ _ _ Hout). now rewrite Eold. }
    rewrite (bind_ok _ _ h' old h') by (rewrite (getitem_ok _ _ _ _ Hout); now rewrite Eold).
    exec_load HP4.
    exec_load HP2.
    destruct (getitem_nd vols _) as [vol|e] eqn:Evol.
    2:{ rewrite (bind_raise _ _ h' e h'); [reflexivity|].
        rewrite (getitem_ok _ _ _ _ HP3). now rewrite Evol. }
    rewrite (bind_ok _ _ h' vol h') by (rewrite (getitem_ok _ _ _ _ HP3); now rewrite Evol).
    now rewrite (setitem_ok _ _ _ _ _ Hout).
  - intros h' a' (HP1 & HP2 & HP3 & HP4). now rewrite !list_lookup_insert_ne by lia.
  - now rewrite !lookup_app_l.
Qed.

Lemma for_each_ext {A} (xs : list A) (b1 b2 : A -> M unit) :
  (forall x h, b1 x h = b2 x h) -> forall h, for_each xs b1 h = for_each xs b2 h.
Proof.
  intros Hb. induction xs as [|x xs IH]; intros h; [reflexivity|].
  cbn. rewrite Hb. destruct (b2 x h) as [[[]|e] h']; [apply IH | reflexivity].
Qed.

(** On one grid the sub-grid method is the plain one. *)
Lemma subgrid_on_one_grid self grid phi temp h :
  subgrid_calculate_defect_density index_of_grid_at_x phi_at_x self grid grid phi temp h =
  calculate_defect_density index_of_grid_at_x phi_at_x self grid phi temp h.
Proof.
  unfold subgrid_calculate_defect_density, calculate_defect_density.
  apply bind_ext. intros out h1. apply bind_cong. apply for_each_ext.
  intros s h2. cbn. unfold load, getitem, lift. cbn. unfold load.
  destruct (h2 !! Grid.x grid) as [gx|] eqn:Egx; [|reflexivity].
  destruct (h2 !! out) as [a|]; [|reflexivity].
  destruct (getitem_nd a _) as [old|e]; [|reflexivity].
  destruct (h2 !! phi) as [ph|]; [|reflexivity].
  now rewrite Egx.
Qed.

Lemma calculate_defect_density_run self grid phi temp h gx vols ph :
  h !! Grid.x grid = Some gx -> h !! Grid.volumes grid = Some vols -> h !! phi = Some ph ->
  calculate_defect_density index_of_grid_at_x phi_at_x self grid phi temp h =
    let z := np_zeros (np_shape gx) in
    (finish (length h) (fst (run_steps (density_step gx gx vols ph temp) (sites self) z)),
     h ++ [snd (run_steps (density_step gx gx vols ph temp) (sites self) z)]).
Proof.
  intros Hgx Hvols Hph. rewrite <- subgrid_on_one_grid.
  now apply subgrid_calculate_defect_density_run.
Qed.

End AggregationFacts.

(** ** Scattering values into an array *)

Lemma slot_lt n i k : slot n i = Some k -> k < n.
Proof.
  unfold slot. repeat case_match; intros; simplify_eq; lia.
Qed.

Lemma fold_left_agree {A B} (u v : B -> A -> B) (l : list A) (b : B) :
  Forall (fun a => forall acc, u acc a = v acc a) l -> fold_left u l b = fold_left v l b.
Proof.
  intros Hl. revert b. induction Hl as [|a l Ha _ IH]; intros b; [reflexivity|].
  cbn. rewrite Ha. apply IH.
Qed.

(** A loop whose iteration for site [s] replaces the entry at [place s] by
    [u] of its old value. *)
Lemma run_steps_scatter (f : step) (n : nat) (place : Site.t -> option nat)
    (u : float -> Site.t -> float) (ss : list Site.t) :
  Forall (fun s => forall xs, length xs = n ->
            exists k old, place s = Some k /\ xs !! k = Some old /\
                          f s (Nd1 xs) = Ok (Nd1 (<[k := u old s]> xs))) ss ->
  forall xs, length xs = n ->
  exists xs', run_steps f ss (Nd1 xs) = (Ok tt, Nd1 xs') /\ length xs' = n /\
    forall k, xs' !! k =
      (fun x0 => fold_left u (filter (fun s => place s = Some k) ss) x0) <$> xs !! k.
Proof.
  intros Hss. induction Hss as [|s ss Hs _ IH]; intros xs Hlen.
  - exists xs. split; [reflexivity|]. split; [exact Hlen|].
    intros k. cbn. now destruct (xs !! k).
  - destruct (Hs xs Hlen) as (k0 & old & Hplace & Hold & Hf).
    destruct (IH (<[k0 := u old s]> xs)) as (xs' & Hrun & Hlen' & Hlook).
    { now rewrite length_insert. }
    exists xs'. split; [cbn; now rewrite Hf|]. split; [exact Hlen'|].
    intros k. rewrite Hlook, filter_cons.
    destruct (decide (k = k0)) as [->|Hne].
    + rewrite list_lookup_insert_eq by (eapply lookup_lt_Some; eauto).
      rewrite Hold. destruct (decide (place s = Some k0)); [reflexivity|contradiction].
    + rewrite list_lookup_insert_ne by congruence.
      destruct (decide (place s = Some k)); [congruence|reflexivity].
Qed.

(** ** What each loop leaves in the array *)

Section AggregationEntries.

Variable index_of_grid_at_x : ndarray -> float -> Z.
Variable phi_at_x : ndarray -> ndarray -> float -> float.
Variable energy_at_x : list float -> ndarray -> float -> float.

Local Abbreviation nearest := (nearest index_of_grid_at_x).
Local Abbreviation sites_at := (sites_at index_of_grid_at_x).

Lemma one_probability_eq s v temp :
  one_probability s v temp -> Site.probabilities s v temp = [the_probability s v temp].
Proof.
  unfold one_probability, the_probability, np_asarray, as_item.
  destruct (Site.probabilities s v temp) as [|p [|q l]]; cbn; intros; try lia.
  reflexivity.
Qed.

Lemma zeros_lookup n k : k < n -> replicate n 0%float !! k = Some 0%float.
Proof. intros. now apply lookup_replicate_2. Qed.

Lemma energies_loop gx n ss :
  Forall (fun s => is_Some (nearest gx n s)) ss ->
  exists arr,
    run_steps (energies_step index_of_grid_at_x energy_at_x gx) ss (np_zeros (Vector n))
      = (Ok tt, Nd1 arr) /\
    length arr = n /\
    forall k, k < n ->
      arr !! k = Some (fold_left
                         (fun _ s => energy_at_x (Site.defect_energies s) gx (Site.x s))
                         (sites_at gx n k ss) 0%float).
Proof.
  intros Hss.
  destruct (run_steps_scatter (energies_step index_of_grid_at_x energy_at_x gx) n
              (nearest gx n)
              (fun _ s => energy_at_x (Site.defect_energies s) gx (Site.x s)) ss)
    with (xs := replicate n 0%float) as (arr & Hrun & Hlen & Hlook).
  - eapply Forall_impl; [exact Hss|]. intros s [k Hk] xs Hxs.
    destruct (lookup_lt_is_Some_2 xs k) as [old Hold].
    { rewrite Hxs. eapply slot_lt; exact Hk. }
    exists k, old. split; [exact Hk|]. split; [exact Hold|].
    unfold energies_step, setitem_nd. rewrite Hxs.
    unfold nearest in Hk. now rewrite Hk.
  - apply length_replicate.
  - exists arr. split; [exact Hrun|]. split; [exact Hlen|].
    intros k Hk. rewrite Hlook, zeros_lookup by exact Hk. reflexivity.
Qed.

Lemma probability_loop gx ph temp n ss :
  Forall (fun s => is_Some (nearest gx n s) /\
                   one_probability s (phi_at_x ph gx (Site.x s)) temp) ss ->
  exists arr,
    run_steps (probability_step index_of_grid_at_x phi_at_x gx ph temp) ss
        (np_zeros (Vector n)) = (Ok tt, Nd1 arr) /\
    length arr = n /\
    forall k, k < n ->
      arr !! k = Some (fold_left
                         (fun _ s => the_probability s (phi_at_x ph gx (Site.x s)) temp)
                         (sites_at gx n k ss) 0%float).
Proof.
  intros Hss.
  destruct (run_steps_scatter (probability_step index_of_grid_at_x phi_at_x gx ph temp) n
              (nearest gx n)
              (fun _ s => the_probability s (phi_at_x ph gx (Site.x s)) temp) ss)
    with (xs := replicate n 0%float) as (arr & Hrun & Hlen & Hlook).
  - eapply Forall_impl; [exact Hss|]. intros s [[k Hk] Hone] xs Hxs.
    destruct (lookup_lt_is_Some_2 xs k) as [old Hold].
    { rewrite Hxs. eapply slot_lt; exact Hk. }
    exists k, old. split; [exact Hk|]. split; [exact Hold|].
    unfold probability_step, setitem_nd. rewrite Hxs.
    unfold nearest in Hk. rewrite Hk.
    now rewrite (one_probability_eq _ _ _ Hone).
  - apply length_replicate.
  - exists arr. split; [exact Hrun|]. split; [exact Hlen|].
    intros k Hk. rewrite Hlook, zeros_lookup by exact Hk. reflexivity.
Qed.

Lemma density_loop ix px vs ph temp ss :
  Forall (fun s => is_Some (nearest ix (length vs) s) /\
                   one_probability s (phi_at_x ph px (Site.x s)) temp) ss ->
  exists arr,
    run_steps (density_step index_of_grid_at_x phi_at_x ix px (Nd1 vs) ph temp) ss
        (np_zeros (Vector (length vs))) = (Ok tt, Nd1 arr) /\
    length arr = length vs /\
    forall k vol, vs !! k = Some vol ->
      arr !! k = Some (fold_left
                         (fun acc s =>
                            (acc + the_probability s (phi_at_x ph px (Site.x s)) temp / vol)%float)
                         (sites_at ix (length vs) k ss) 0%float).
Proof.
  intros Hss.
  set (vol_of := fun s => default 0%float (nearest ix (length vs) s ≫= (vs !!.))).
  destruct (run_steps_scatter
              (density_step index_of_grid_at_x phi_at_x ix px (Nd1 vs) ph temp) (length vs)
              (nearest ix (length vs))
              (fun acc s =>
                 (acc + the_probability s (phi_at_x ph px (Site.x s)) temp / vol_of s)%float)
              ss)
    with (xs := replicate (length vs) 0%float) as (arr & Hrun & Hlen & Hlook).
  - eapply Forall_impl; [exact Hss|]. intros s [[k Hk] Hone] xs Hxs.
    assert (Hlt : k < length vs) by (eapply slot_lt; exact Hk).
    destruct (lookup_lt_is_Some_2 xs k) as [old Hold]; [now rewrite Hxs|].
    destruct (lookup_lt_is_Some_2 vs k) as [vol Hvol]; [exact Hlt|].
    exists k, old. split; [exact Hk|]. split; [exact Hold|].
    unfold density_step, getitem_nd, setitem_nd. rewrite Hxs.
    unfold vol_of. unfold nearest in *. rewrite Hk. cbn. rewrite Hold, Hvol. cbn.
    now rewrite (one_probability_eq _ _ _ Hone).
  - apply length_replicate.
  - exists arr. split; [exact Hrun|]. split; [exact Hlen|].
    intros k vol Hvol.
    rewrite Hlook, zeros_lookup by (eapply lookup_lt_Some; exact Hvol). cbn.
    f_equal. apply fold_left_agree.
    apply Forall_forall. intros s Hs acc.
    unfold sites_at in Hs.
    apply list_elem_of_filter in Hs as [Hk _].
    unfold vol_of. rewrite Hk. cbn. now rewrite Hvol.
Qed.

End AggregationEntries.

(** ** The aggregation methods *)

Section AggregationMethods.

Variable index_of_grid_at_x : ndarray -> float -> Z.
Variable phi_at_x : ndarray -> ndarray -> float -> float.
Variable energy_at_x : list float -> ndarray -> float -> float.
Variable np_shape_of_grid : Grid.t -> shape.

Local Abbreviation nearest := (nearest index_of_grid_at_x).
Local Abbreviation sites_at := (sites_at index_of_grid_at_x).

Lemma sum_in_order_map {A} (c : A -> float) (l : list A) :
  fold_left (fun acc a => (acc + c a)%float) l 0%float = sum_in_order (map c l).
Proof.
  unfold sum_in_order. generalize 0%float.
  induction l as [|a l IH]; intros x0; [reflexivity|]. cbn. apply IH.
Qed.

Lemma last_write {A} (c : A -> float) (l : list A) (a : A) (x0 : float) :
  fold_left (fun _ a' => c a') (l ++ [a]) x0 = c a.
Proof. now rewrite fold_left_app. Qed.

Lemma sites_at_last gx n k before s after :
  nearest gx n s = Some k ->
  Forall (fun s' => nearest gx n s' <> Some k) after ->
  sites_at gx n k (before ++ s :: after) = sites_at gx n k before ++ [s].
Proof.
  intros Hs Hafter. unfold sites_at.
  rewrite filter_app, filter_cons. destruct (decide (nearest gx n s = Some k)); [|contradiction].
  f_equal. f_equal. induction Hafter as [|s' after Hs' _ IH]; [reflexivity|].
  rewrite filter_cons. destruct (decide (nearest gx n s' = Some k)); [contradiction|exact IH].
Qed.

Lemma calculate_energies_on_grid_entries self grid phi h gx n :
  h !! Grid.x grid = Some gx ->
  np_shape_of_grid grid = Vector n ->
  Forall (fun s => is_Some (nearest gx n s)) (sites self) ->
  exists arr,
    calculate_energies_on_grid index_of_grid_at_x energy_at_x np_shape_of_grid self grid phi h
      = (Ok (length h), h ++ [Nd1 arr]) /\
    length arr = n /\
    forall k, k < n ->
      arr !! k = Some (fold_left
                         (fun _ s => energy_at_x (Site.defect_energies s) gx (Site.x s))
                         (sites_at gx n k (sites self)) 0%float).
Proof.
  intros Hgx Hshape Hss.
  destruct (energies_loop index_of_grid_at_x energy_at_x gx n (sites self) Hss)
    as (arr & Hrun & Hlen & Hlook).
  exists arr. split; [|now split].
  rewrite (calculate_energies_on_grid_run _ _ _ _ _ _ _ _ Hgx). cbn zeta.
  rewrite Hshape, Hrun. reflexivity.
Qed.

(** With a grid that numpy takes for a scalar, the first store fails. *)
Lemma calculate_energies_on_grid_scalar self grid phi h gx s ss :
  h !! Grid.x grid = Some gx ->
  np_shape_of_grid grid = Scalar ->
  sites self = s :: ss ->
  calculate_energies_on_grid index_of_grid_at_x energy_at_x np_shape_of_grid self grid phi h
    = (Raise IndexError, h ++ [Nd0 0%float]).
Proof.
  intros Hgx Hshape Hsites.
  rewrite (calculate_energies_on_grid_run _ _ _ _ _ _ _ _ Hgx). cbn zeta.
  rewrite Hshape, Hsites. reflexivity.
Qed.

Lemma calculate_probabilities_entries self grid phi temp h xs ph :
  h !! Grid.x grid = Some (Nd1 xs) ->
  h !! phi = Some ph ->
  Forall (fun s => is_Some (nearest (Nd1 xs) (length xs) s) /\
                   one_probability s (phi_at_x ph (Nd1 xs) (Site.x s)) temp) (sites self) ->
  exists arr,
    calculate_probabilities index_of_grid_at_x phi_at_x self grid phi temp h
      = (Ok (length h), h ++ [Nd1 arr]) /\
    length arr = length xs /\
    forall k, k < length xs ->
      arr !! k = Some (fold_left
                         (fun _ s => the_probability s (phi_at_x ph (Nd1 xs) (Site.x s)) temp)
                         (sites_at (Nd1 xs) (length xs) k (sites self)) 0%float).
Proof.
  intros Hgx Hph Hss.
  destruct (probability_loop index_of_grid_at_x phi_at_x (Nd1 xs) ph temp (length xs)
              (sites self) Hss) as (arr & Hrun & Hlen & Hlook).
  exists arr. split; [|now split].
  rewrite (calculate_probabilities_run _ _ _ _ _ _ _ _ _ Hgx Hph). cbn zeta.
  cbn [np_shape]. rewrite Hrun. reflexivity.
Qed.

Lemma subgrid_calculate_defect_density_entries
    self sub_grid full_grid phi temp h xs fx vs ph :
  h !! Grid.x sub_grid = Some (Nd1 xs) ->
  h !! Grid.x full_grid = Some fx ->
  h !! Grid.volumes sub_grid = Some (Nd1 vs) ->
  length vs = length xs ->
  h !! phi = Some ph ->
  Forall (fun s => is_Some (nearest (Nd1 xs) (length xs) s) /\
                   one_probability s (phi_at_x ph fx (Site.x s)) temp) (sites self) ->
  exists arr,
    subgrid_calculate_defect_density index_of_grid_at_x phi_at_x
        self sub_grid full_grid phi temp h
      = (Ok (length h), h ++ [Nd1 arr]) /\
    length arr = length xs /\
    forall k vol, vs !! k = Some vol ->
      arr !! k = Some (sum_in_order
                         (map (fun s =>
                                 (the_probability s (phi_at_x ph fx (Site.x s)) temp / vol)%float)
                              (sites_at (Nd1 xs) (length xs) k (sites self)))).
Proof.
  intros Hsx Hfx Hvols Hlen Hph Hss. rewrite <- Hlen in Hss |- *.
  destruct (density_loop index_of_grid_at_x phi_at_x (Nd1 xs) fx vs ph temp
              (sites self) Hss) as (arr & Hrun & Hlen' & Hlook).
  exists arr. split; [|split; [exact Hlen'|]].
  - rewrite (subgrid_calculate_defect_density_run _ _ _ _ _ _ _ _ _ _ _ _
               Hsx Hfx Hvols Hph). cbn zeta.
    cbn [np_shape]. rewrite <- Hlen, Hrun. reflexivity.
  - intros k vol Hvol. rewrite (Hlook k vol Hvol). f_equal. apply sum_in_order_map.
Qed.

(** C3.  [calculate_probabilities] assigns: when every store succeeds, the
    entry at a position holds the probability of the last site, in iteration
    order, that is written there, whatever the sites before it stored. *)
Theorem calculate_probabilities_last_writer_wins
    self grid phi temp h xs ph before s after k :
  h !! Grid.x grid = Some (Nd1 xs) ->
  h !! phi = Some ph ->
  Forall (fun s' => is_Some (nearest (Nd1 xs) (length xs) s') /\
                    one_probability s' (phi_at_x ph (Nd1 xs) (Site.x s')) temp)
         (sites self) ->
  sites self = before ++ s :: after ->
  nearest (Nd1 xs) (length xs) s = Some k ->
  Forall (fun s' => nearest (Nd1 xs) (length xs) s' <> Some k) after ->
  exists arr p,
    calculate_probabilities index_of_grid_at_x phi_at_x self grid phi temp h
      = (Ok (length h), h ++ [Nd1 arr]) /\
    Site.probabilities s (phi_at_x ph (Nd1 xs) (Site.x s)) temp = [p] /\
    arr !! k = Some p.
Proof.
  intros Hgx Hph Hss Hsplit Hs Hafter.
  destruct (calculate_probabilities_entries self grid phi temp h xs ph Hgx Hph Hss)
    as (arr & Hrun & _ & Hlook).
  exists arr, (the_probability s (phi_at_x ph (Nd1 xs) (Site.x s)) temp).
  split; [exact Hrun|]. split.
  - apply one_probability_eq.
    rewrite Hsplit in Hss. apply Forall_app in Hss as [_ Hss].
    apply Forall_cons in Hss as [[_ Hone] _]. exact Hone.
  - rewrite Hlook by (eapply slot_lt; exact Hs).
    rewrite Hsplit, (sites_at_last _ _ _ _ _ _ Hs Hafter).
    now rewrite last_write.
Qed.

(** C4.  [calculate_defect_density] accumulates: when every store succeeds,
    the entry at a position is the sum, from zero and in iteration order, of
    probability / volume over the sites written there, the volume being the
    one at that position. *)
Theorem calculate_defect_density_additive self grid phi temp h xs vs ph :
  h !! Grid.x grid = Some (Nd1 xs) ->
  h !! Grid.volumes grid = Some (Nd1 vs) ->
  length vs = length xs ->
  h !! phi = Some ph ->
  Forall (fun s => is_Some (nearest (Nd1 xs) (length xs) s) /\
                   one_probability s (phi_at_x ph (Nd1 xs) (Site.x s)) temp)
         (sites self) ->
  exists arr,
    calculate_defect_density index_of_grid_at_x phi_at_x self grid phi temp h
      = (Ok (length h), h ++ [Nd1 arr]) /\
    length arr = length xs /\
    forall k vol, vs !! k = Some vol ->
      arr !! k = Some (sum_in_order
                         (map (fun s =>
                                 (the_probability s (phi_at_x ph (Nd1 xs) (Site.x s)) temp
                                  / vol)%float)
                              (sites_at (Nd1 xs) (length xs) k (sites self)))).
Proof.
  intros Hgx Hvols Hlen Hph Hss. rewrite <- subgrid_on_one_grid.
  now apply subgrid_calculate_defect_density_entries.
Qed.

(** C6.  [subgrid_calculate_defect_density] takes the position and the
    volume from [sub_grid] and interpolates the potential against
    [full_grid]; the contributions written to one position are added as in
    [calculate_defect_density], which it equals when both grids are one. *)
Theorem subgrid_calculate_defect_density_frames
    self sub_grid full_grid phi temp h xs fx vs ph :
  h !! Grid.x sub_grid = Some (Nd1 xs) ->
  h !! Grid.x full_grid = Some fx ->
  h !! Grid.volumes sub_grid = Some (Nd1 vs) ->
  length vs = length xs ->
  h !! phi = Some ph ->
  Forall (fun s => is_Some (nearest (Nd1 xs) (length xs) s) /\
                   one_probability s (phi_at_x ph fx (Site.x s)) temp) (sites self) ->
  (exists arr,
     subgrid_calculate_defect_density index_of_grid_at_x phi_at_x
         self sub_grid full_grid phi temp h
       = (Ok (length h), h ++ [Nd1 arr]) /\
     length arr = length xs /\
     forall k vol, vs !! k = Some vol ->
       arr !! k = Some (sum_in_order
                          (map (fun s =>
                                  (the_probability s (phi_at_x ph fx (Site.x s)) temp
                                   / vol)%float)
                               (sites_at (Nd1 xs) (length xs) k (sites self))))) /\
  (forall h0,
     subgrid_calculate_defect_density index_of_grid_at_x phi_at_x
         self sub_grid sub_grid phi temp h0
     = calculate_defect_density index_of_grid_at_x phi_at_x self sub_grid phi temp h0).
Proof.
  intros Hsx Hfx Hvols Hlen Hph Hss. split.
  - now apply subgrid_calculate_defect_density_entries.
  - intros h0. apply subgrid_on_one_grid.
Qed.

(** The three methods that allocate with [np.zeros_like(grid.x)] return an
    array as long as [grid.x], zero wherever no site is written. *)
Lemma sized_like_grid_x_and_zero_elsewhere
    self grid full_grid phi temp h xs fx vs ph :
  h !! Grid.x grid = Some (Nd1 xs) ->
  h !! Grid.x full_grid = Some fx ->
  h !! Grid.volumes grid = Some (Nd1 vs) ->
  length vs = length xs ->
  h !! phi = Some ph ->
  Forall (fun s => is_Some (nearest (Nd1 xs) (length xs) s) /\
                   one_probability s (phi_at_x ph (Nd1 xs) (Site.x s)) temp /\
                   one_probability s (phi_at_x ph fx (Site.x s)) temp) (sites self) ->
  forall m,
    m = calculate_probabilities index_of_grid_at_x phi_at_x self grid phi temp \/
    m = calculate_defect_density index_of_grid_at_x phi_at_x self grid phi temp \/
    m = subgrid_calculate_defect_density index_of_grid_at_x phi_at_x
          self grid full_grid phi temp ->
    exists arr,
      m h = (Ok (length h), h ++ [Nd1 arr]) /\
      length arr = length xs /\
      forall k, k < length xs -> sites_at (Nd1 xs) (length xs) k (sites self) = [] ->
        arr !! k = Some 0%float.
Proof.
  intros Hgx Hfx Hvols Hlen Hph Hss m Hm.
  assert (Hss1 : Forall (fun s => is_Some (nearest (Nd1 xs) (length xs) s) /\
                   one_probability s (phi_at_x ph (Nd1 xs) (Site.x s)) temp) (sites self))
    by (eapply Forall_impl; [exact Hss|]; cbn; tauto).
  assert (Hss2 : Forall (fun s => is_Some (nearest (Nd1 xs) (length xs) s) /\
                   one_probability s (phi_at_x ph fx (Site.x s)) temp) (sites self))
    by (eapply Forall_impl; [exact Hss|]; cbn; tauto).
  destruct Hm as [-> | [-> | ->]].
  - destruct (calculate_probabilities_entries self grid phi temp h xs ph Hgx Hph Hss1)
      as (arr & Hrun & Hl & Hlook).
    exists arr. split; [exact Hrun|]. split; [exact Hl|].
    intros k Hk Hnone. rewrite Hlook by exact Hk. now rewrite Hnone.
  - rewrite <- subgrid_on_one_grid.
    destruct (subgrid_calculate_defect_density_entries self grid grid phi temp h
                xs (Nd1 xs) vs ph Hgx Hgx Hvols Hlen Hph Hss1) as (arr & Hrun & Hl & Hlook).
    exists arr. split; [exact Hrun|]. split; [exact Hl|].
    intros k Hk Hnone.
    destruct (lookup_lt_is_Some_2 vs k) as [vol Hvol]; [lia|].
    rewrite (Hlook k vol Hvol). now rewrite Hnone.
  - destruct (subgrid_calculate_defect_density_entries self grid full_grid phi temp h
                xs fx vs ph Hgx Hfx Hvols Hlen Hph Hss2) as (arr & Hrun & Hl & Hlook).
    exists arr. split; [exact Hrun|]. split; [exact Hl|].
    intros k Hk Hnone.
    destruct (lookup_lt_is_Some_2 vs k) as [vol Hvol]; [lia|].
    rewrite (Hlook k vol Hvol). now rewrite Hnone.
Qed.

(** *** The heap around a call *)

Lemma allocating_call (m : M loc) (P : heap -> Prop) (r : outcome unit) (a : ndarray) h :
  (forall h', P h' -> m h' = (finish (length h') r, h' ++ [a])) ->
  P h -> P (h ++ [a]) -> leaves_inputs_unchanged m h.
Proof.
  intros Hm HP HP'. unfold leaves_inputs_unchanged, same_output.
  rewrite (Hm h HP). cbn [fst snd]. rewrite (Hm (h ++ [a]) HP'). cbn [fst snd].
  split; [now apply prefix_app_r|]. split; [now apply prefix_app_r|].
  destruct r as [[]|e]; cbn; [|reflexivity].
  exists a. split; [apply lookup_fresh|]. apply (lookup_fresh (h ++ [a]) a).
Qed.

(** C9.  Each aggregation method only allocates: whatever its outcome, the
    arrays that existed before the call ([grid.x], [grid.volumes], [phi]
    among them) hold afterwards what they held before, and calling it again
    with the same arguments ends with the same exception or an array of the
    same contents.  The sites are values that no method can write to. *)
Theorem aggregation_leaves_inputs_unchanged self grid full_grid phi temp h :
  is_Some (h !! Grid.x grid) ->
  is_Some (h !! Grid.volumes grid) ->
  is_Some (h !! Grid.x full_grid) ->
  is_Some (h !! phi) ->
  leaves_inputs_unchanged
    (calculate_energies_on_grid index_of_grid_at_x energy_at_x np_shape_of_grid
       self grid phi) h /\
  leaves_inputs_unchanged
    (calculate_probabilities index_of_grid_at_x phi_at_x self grid phi temp) h /\
  leaves_inputs_unchanged
    (calculate_defect_density index_of_grid_at_x phi_at_x self grid phi temp) h /\
  leaves_inputs_unchanged
    (subgrid_calculate_defect_density index_of_grid_at_x phi_at_x
       self grid full_grid phi temp) h.
Proof.
  intros [gx Hgx] [vols Hvols] [fx Hfx] [ph Hph].
  split; [|split; [|split]].
  - eapply (allocating_call _ (fun h' => h' !! Grid.x grid = Some gx)).
    + intros h' Hgx'. apply (calculate_energies_on_grid_run _ _ _ _ _ _ _ _ Hgx').
    + exact Hgx.
    + now rewrite lookup_app_l by (eapply lookup_lt_Some; eauto).
  - eapply (allocating_call _
              (fun h' => h' !! Grid.x grid = Some gx /\ h' !! phi = Some ph)).
    + intros h' [Hgx' Hph'].
      apply (calculate_probabilities_run _ _ _ _ _ _ _ _ _ Hgx' Hph').
    + now split.
    + split; now rewrite lookup_app_l by (eapply lookup_lt_Some; eauto).
  - eapply (allocating_call _
              (fun h' => h' !! Grid.x grid = Some gx /\
                         h' !! Grid.volumes grid = Some vols /\ h' !! phi = Some ph)).
    + intros h' (Hgx' & Hvols' & Hph').
      apply (calculate_defect_density_run _ _ _ _ _ _ _ _ _ _ Hgx' Hvols' Hph').
    + now repeat split.
    + repeat split; now rewrite lookup_app_l by (eapply lookup_lt_Some; eauto).
  - eapply (allocating_call _
              (fun h' => h' !! Grid.x grid = Some gx /\ h' !! Grid.x full_grid = Some fx /\
                         h' !! Grid.volumes grid = Some vols /\ h' !! phi = Some ph)).
    + intros h' (Hgx' & Hfx' & Hvols' & Hph').
      apply (subgrid_calculate_defect_density_run _ _ _ _ _ _ _ _ _ _ _ _
               Hgx' Hfx' Hvols' Hph').
    + now repeat split.
    + repeat split; now rewrite lookup_app_l by (eapply lookup_lt_Some; eauto).
Qed.

End AggregationMethods.

Lemma slot_in_range n i : (0 <= i < Z.of_nat n)%Z -> slot n i = Some (Z.to_nat i).
Proof.
  intros [H0 Hn]. unfold slot.
  destruct (Z.leb_spec 0 i); [|lia]. destruct (Z.ltb_spec i (Z.of_nat n)); [reflexivity|lia].
Qed.

Lemma slot_beyond n i : (Z.of_nat n <= i)%Z -> slot n i = None.
Proof.
  intros Hn. unfold slot.
  destruct (Z.leb_spec 0 i); [|lia]. destruct (Z.ltb_spec i (Z.of_nat n)); [lia|reflexivity].
Qed.

(** The index modelled from the spec always addresses a gridpoint of a
    grid that has one, so on such a grid no store of the three methods that
    allocate from [grid.x] raises IndexError. *)
Lemma bisect_left_le xs v : GridAlignment.bisect_left xs v <= length xs.
Proof.
  induction xs as [|y ys IH]; cbn; [lia|].
  destruct (y <? v)%float; lia.
Qed.

Lemma index_of_grid_at_x_in_range xs v :
  xs <> [] ->
  (0 <= GridAlignment.index_of_grid_at_x (Nd1 xs) v < Z.of_nat (length xs))%Z.
Proof.
  intros Hne. assert (0 < length xs) by (destruct xs; [congruence|cbn; lia]).
  unfold GridAlignment.index_of_grid_at_x.
  pose proof (bisect_left_le xs v) as Hle.
  destruct (GridAlignment.bisect_left xs v) as [|before] eqn:Epos; [lia|].
  destruct (xs !! before) as [b|] eqn:Eb; [|lia].
  destruct (xs !! S before) as [a|] eqn:Ea; [|lia].
  apply lookup_lt_Some in Ea.
  destruct (a - v <? v - b)%float; lia.
Qed.

Lemma index_of_grid_at_x_slot xs v :
  xs <> [] ->
  is_Some (slot (length xs) (GridAlignment.index_of_grid_at_x (Nd1 xs) v)).
Proof.
  intros Hne. rewrite slot_in_range by now apply index_of_grid_at_x_in_range.
  eauto.
Qed.

(** C1.  On the five-point grid with the two sites above, both nearest to
    gridpoint 1 with energies 0.3 and 0.4, [calculate_energies_on_grid]
    never leaves their sum 0 + 0.3 + 0.4 at position 1: whatever shape
    numpy gives the Grid object, the call raises IndexError or position 1
    holds 0.4, the energy of the site written last. *)
Theorem calculate_energies_on_grid_keeps_last_energy :
  forall np_shape_of_grid : Grid.t -> shape,
    let r := calculate_energies_on_grid
               GridAlignment.index_of_grid_at_x GridAlignment.energy_at_x np_shape_of_grid
               (Scenario.two_sites 0.5 0.5) Scenario.grid Scenario.phi Scenario.arrays in
    GridAlignment.energy_at_x (Site.defect_energies (Scenario.site_p 0.5))
      (Nd1 [0; 1; 2; 3; 4]%float) (Site.x (Scenario.site_p 0.5)) = 0.3%float /\
    GridAlignment.energy_at_x (Site.defect_energies (Scenario.site_q 0.5))
      (Nd1 [0; 1; 2; 3; 4]%float) (Site.x (Scenario.site_q 0.5)) = 0.4%float /\
    (0 + 0.3 + 0.4)%float <> 0.4%float /\
    match r.1 with
    | Ok out => exists arr, r.2 !! out = Some (Nd1 arr) /\ arr !! 1 = Some 0.4%float
    | Raise e => e = IndexError
    end.
Proof.
  intros shape_of r.
  split; [vm_compute; reflexivity|]. split; [vm_compute; reflexivity|].
  split; [vm_compute; discriminate|].
  subst r.
  destruct (shape_of Scenario.grid) as [|n] eqn:Eshape.
  - erewrite calculate_energies_on_grid_scalar; [reflexivity|reflexivity|exact Eshape|reflexivity].
  - rewrite (calculate_energies_on_grid_run _ _ shape_of (Scenario.two_sites 0.5 0.5)
               Scenario.grid Scenario.phi Scenario.arrays
               (Nd1 [0; 1; 2; 3; 4]%float) eq_refl).
    cbn zeta. rewrite Eshape.
    assert (Hi1 : GridAlignment.index_of_grid_at_x (Nd1 [0; 1; 2; 3; 4]%float) 1.05%float = 1%Z)
      by (vm_compute; reflexivity).
    assert (Hi2 : GridAlignment.index_of_grid_at_x (Nd1 [0; 1; 2; 3; 4]%float) 0.96%float = 1%Z)
      by (vm_compute; reflexivity).
    assert (He2 : GridAlignment.energy_at_x (replicate 5 0.4%float)
                    (Nd1 [0; 1; 2; 3; 4]%float) 0.96%float = 0.4%float)
      by (vm_compute; reflexivity).
    cbn [Scenario.two_sites sites run_steps np_zeros].
    unfold energies_step, setitem_nd. cbn [Scenario.site_p Scenario.site_q Site.x Site.defect_energies].
    rewrite Hi1, Hi2, He2, length_replicate.
    destruct (decide (n <= 1)) as [Hn|Hn].
    + rewrite slot_beyond by lia. reflexivity.
    + rewrite slot_in_range by lia. cbn [as_item].
      rewrite length_insert, length_replicate, slot_in_range by lia.
      cbn [as_item fst snd finish].
      eexists. split; [apply lookup_fresh|].
      apply list_lookup_insert_eq. rewrite length_insert, length_replicate. cbn. lia.
Qed.

(** C2.  With a Grid that is a plain object, [calculate_energies_on_grid]
    allocates a 0-dimensional array for [np.zeros_like(grid)] and raises
    IndexError at the first site: it returns no array as long as [grid.x],
    which has five entries here. *)
Theorem calculate_energies_on_grid_not_sized_like_grid_x :
  calculate_energies_on_grid
    GridAlignment.index_of_grid_at_x GridAlignment.energy_at_x plain_object_shape
    (Scenario.two_sites 0.5 0.5) Scenario.grid Scenario.phi Scenario.arrays
  = (Raise IndexError, Scenario.arrays ++ [Nd0 0%float]).
Proof. vm_compute. reflexivity. Qed.

(** ** Concatenation *)

(** C10.  [s + other] raises TypeError for every [other] that is not an
    instance of Set_of_Sites; it succeeds only when [other] is a
    Set_of_Sites, and then concatenates the two site lists. *)
Theorem add_requires_Set_of_Sites (s : Set_of_Sites) :
  (forall other, isinstance_Set_of_Sites other = false -> __add__ s other = Raise TypeError) /\
  (forall other r, __add__ s other = Ok r ->
     exists o, other = PySet_of_Sites o /\ type_is_Set_of_Sites other = true /\
               r = mk_Set_of_Sites (sites s ++ sites o)).
Proof.
  split.
  - intros other Hother. destruct other; cbn in *; try reflexivity; discriminate.
  - intros other r Hr. destruct other as [o| | | | | |]; cbn in Hr; try discriminate.
    exists o. split; [reflexivity|]. split; [reflexivity|]. now inversion Hr.
Qed.

(** ** Comparison and sign of floats *)

Lemma Prim2SF_eq (x y : float) : Prim2SF x = Prim2SF y -> x = y.
Proof.
  intros E. rewrite <- (SF2Prim_Prim2SF x), <- (SF2Prim_Prim2SF y). now rewrite E.
Qed.

Lemma binary_round_aux_negb prec emax s m e l :
  binary_round_aux prec emax (negb s) m e l = SFopp (binary_round_aux prec emax s m e l).
Proof.
  unfold binary_round_aux.
  destruct (shr_fexp prec emax m e l) as [mrs' e'].
  destruct (shr_fexp prec emax _ e' loc_Exact) as [mrs'' e''].
  destruct (shr_m mrs''); [reflexivity| |reflexivity].
  now destruct (Z.leb e'' (emax - prec)).
Qed.

Lemma SFmul_opp_l prec emax x y :
  SFmul prec emax (SFopp x) y = SFopp (SFmul prec emax x y).
Proof.
  destruct x as [sx|sx| |sx mx ex], y as [sy|sy| |sy my ey]; cbn; try reflexivity;
    try (now destruct sx, sy).
  rewrite <- binary_round_aux_negb. now destruct sx, sy.
Qed.

(** [-k * T] is [-(k * T)], rounding included. *)
Lemma mul_opp_l (x y : float) : (- x * y = - (x * y))%float.
Proof.
  apply Prim2SF_eq. rewrite mul_spec, !opp_spec, mul_spec. apply SFmul_opp_l.
Qed.

Lemma SFltb_irrefl x : SFltb x x = false.
Proof.
  unfold SFltb, SFcompare. destruct x as [s|s| |s m e]; try reflexivity.
  - now destruct s.
  - destruct s; rewrite Z.compare_refl;
      change (Pos.compare_cont Eq m m) with (Pos.compare m m);
      now rewrite Pos.compare_refl.
Qed.

Lemma ltb_irrefl (x : float) : (x <? x)%float = false.
Proof. rewrite ltb_spec. apply SFltb_irrefl. Qed.

Lemma SFltb_trans x y z : SFltb x y = true -> SFltb y z = true -> SFltb x z = true.
Proof.
  unfold SFltb, SFcompare.
  destruct x as [sx|sx| |sx mx ex], y as [sy|sy| |sy my ey], z as [sz|sz| |sz mz ez];
    try discriminate; try reflexivity;
    try (destruct sx, sy, sz; try discriminate; try reflexivity; fail).
  destruct sx, sy, sz; try discriminate; try reflexivity;
    change (Pos.compare_cont Eq mx my) with (Pos.compare mx my);
    change (Pos.compare_cont Eq my mz) with (Pos.compare my mz);
    change (Pos.compare_cont Eq mx mz) with (Pos.compare mx mz);
    destruct (Z.compare_spec ex ey), (Z.compare_spec ey ez), (Z.compare_spec ex ez);
    try discriminate; try reflexivity; try lia;
    destruct (Pos.compare_spec mx my), (Pos.compare_spec my mz), (Pos.compare_spec mx mz);
    cbn; try discriminate; try reflexivity; try lia.
Qed.

Lemma ltb_trans (x y z : float) :
  (x <? y)%float = true -> (y <? z)%float = true -> (x <? z)%float = true.
Proof. rewrite !ltb_spec. apply SFltb_trans. Qed.

(** ** The minimum *)

Lemma min_fold (ys seen : list float) (m0 : float) :
  In m0 seen ->
  Forall (fun v => (v <? m0)%float = false) seen ->
  let m := fold_left (fun m v => if (v <? m)%float then v else m) ys m0 in
  In m (seen ++ ys) /\ Forall (fun v => (v <? m)%float = false) (seen ++ ys).
Proof.
  revert seen m0. induction ys as [|y ys IH]; intros seen m0 Hin Hle.
  - cbn. now rewrite app_nil_r.
  - cbn [fold_left]. replace (seen ++ y :: ys) with ((seen ++ [y]) ++ ys)
      by (now rewrite <- app_assoc).
    destruct (y <? m0)%float eqn:Hy.
    + apply IH.
      * apply in_or_app. right. now left.
      * apply Forall_app. split.
        -- eapply Forall_impl; [exact Hle|]. intros v Hv. cbn in Hv.
           destruct (v <? y)%float eqn:Hvy; [|reflexivity].
           now rewrite (ltb_trans _ _ _ Hvy Hy) in Hv.
        -- constructor; [apply ltb_irrefl|constructor].
    + apply IH.
      * apply in_or_app. now left.
      * apply Forall_app. split; [exact Hle|]. constructor; [exact Hy|constructor].
Qed.

(** [min] returns an element that no element is less than. *)
Lemma py_min_least xs m :
  py_min xs = Ok m -> In m xs /\ Forall (fun v => (v <? m)%float = false) xs.
Proof.
  destruct xs as [|y ys]; [discriminate|]. cbn [py_min]. intros [= <-].
  apply (min_fold ys [y] y); [now left|].
  constructor; [apply ltb_irrefl|constructor].
Qed.

Lemma py_min_nonempty xs : xs <> [] -> exists m, py_min xs = Ok m.
Proof. destruct xs as [|y ys]; [congruence|]. intros _. eexists. reflexivity. Qed.

(** ** The def below the return of [form_continuum_sites_new] *)

Lemma Forall2_map_self {A} (R : A -> A -> Prop) (f : A -> A) (l : list A) :
  (forall a, R a (f a)) -> Forall2 R l (map f l).
Proof. intros HR. induction l; cbn; constructor; auto. Qed.

Lemma same_but_energy_zeroed line : same_but_energy line (Line.set_item4 line 0%float).
Proof. unfold same_but_energy. cbn. tauto. Qed.

(** What the function of the def of lines 158 to 172 would do, were the def
    ever run: the flattening that the def describes. *)
Section DefBelowReturn.

Variables input_t species_t charge_t : Type.
Variable load_site_data : input_t -> float -> float -> charge_t -> float -> list Line.t.
Variable site_from_input_file : Line.t -> species_t -> charge_t -> string -> float -> Site.t.
Variable boltzmann_eV : float.

Lemma flattened_site_data_nonempty input_data limits lo hi more site_charge core
    temperature offset :
  limits = lo :: hi :: more ->
  load_site_data input_data lo hi site_charge offset <> [] ->
  exists min_energy,
    py_min (map Line.item4 (load_site_data input_data lo hi site_charge offset))
      = Ok min_energy /\
    form_continuum_sites_new.flattened_site_data input_t charge_t load_site_data boltzmann_eV
        input_data limits site_charge core temperature offset
      = Ok (let site_data := load_site_data input_data lo hi site_charge offset in
            let site_data :=
              if String.eqb core "single"
              then map (form_continuum_sites_new.flatten_single min_energy) site_data
              else site_data in
            if String.eqb core "multi_site"
            then map (form_continuum_sites_new.flatten_multi_site boltzmann_eV temperature)
                     site_data
            else site_data).
Proof.
  intros -> Hne.
  destruct (py_min_nonempty (map Line.item4 (load_site_data input_data lo hi site_charge offset)))
    as [m Hm].
  { intros E. apply Hne. now apply map_eq_nil in E. }
  exists m. split; [exact Hm|].
  unfold form_continuum_sites_new.flattened_site_data.
  cbn [list_getitem lookup list_lookup bind outcome_monad].
  now rewrite Hm.
Qed.

(** With [core = 'single'] and at least one record loaded, the minimum is
    an energy that no loaded energy is less than; a site is built from every
    record, the energy being 0.0 in exactly those records whose energy is
    greater than the minimum, with every other field as loaded, and from the
    record as loaded where the energy is the minimum. *)
Lemma def_single_core_zeroes_above_minimum
    input_data limits lo hi more defect_species site_charge temperature offset :
  limits = lo :: hi :: more ->
  load_site_data input_data lo hi site_charge offset <> [] ->
  exists min_energy flattened,
    py_min (map Line.item4 (load_site_data input_data lo hi site_charge offset))
      = Ok min_energy /\
    In min_energy (map Line.item4 (load_site_data input_data lo hi site_charge offset)) /\
    Forall (fun e => (e <? min_energy)%float = false)
           (map Line.item4 (load_site_data input_data lo hi site_charge offset)) /\
    form_continuum_sites_new.set_of_sites_from_input_data input_t species_t charge_t
        load_site_data site_from_input_file boltzmann_eV
        input_data limits defect_species site_charge "single" temperature offset
      = Ok (mk_Set_of_Sites
              (map (fun line =>
                      site_from_input_file line defect_species site_charge "single" temperature)
                   flattened)) /\
    Forall2 (flattened_by (fun e => (min_energy <? e)%float))
            (load_site_data input_data lo hi site_charge offset) flattened /\
    Forall2 (fun line line' => Line.item4 line = min_energy -> line' = line)
            (load_site_data input_data lo hi site_charge offset) flattened.
Proof.
  intros Hlimits Hne.
  destruct (flattened_site_data_nonempty input_data limits lo hi more site_charge "single"
              temperature offset Hlimits Hne) as (m & Hm & Hflat).
  exists m, (map (form_continuum_sites_new.flatten_single m)
               (load_site_data input_data lo hi site_charge offset)).
  destruct (py_min_least _ _ Hm) as [Hin Hleast].
  repeat split; try assumption.
  - unfold form_continuum_sites_new.set_of_sites_from_input_data. rewrite Hflat. reflexivity.
  - apply Forall2_map_self. intros line.
    unfold flattened_by, form_continuum_sites_new.flatten_single.
    destruct (m <? Line.item4 line)%float; [|reflexivity].
    split; [reflexivity|apply same_but_energy_zeroed].
  - apply Forall2_map_self. intros line Hline.
    unfold form_continuum_sites_new.flatten_single.
    now rewrite Hline, ltb_irrefl.
Qed.

(** With [core = 'multi_site'] and at least one record loaded, a site is
    built from every record, the energy being 0.0 in exactly those records
    whose energy lies in [[-kT, kT]], [kT] being the product
    [boltzmann_eV * temperature], with every other field as loaded, and from
    the record as loaded elsewhere. *)
Lemma def_multi_site_core_zeroes_within_kT
    input_data limits lo hi more defect_species site_charge temperature offset :
  limits = lo :: hi :: more ->
  load_site_data input_data lo hi site_charge offset <> [] ->
  exists flattened,
    form_continuum_sites_new.set_of_sites_from_input_data input_t species_t charge_t
        load_site_data site_from_input_file boltzmann_eV
        input_data limits defect_species site_charge "multi_site" temperature offset
      = Ok (mk_Set_of_Sites
              (map (fun line =>
                      site_from_input_file line defect_species site_charge "multi_site"
                        temperature)
                   flattened)) /\
    Forall2 (flattened_by
               (fun e => ((- (boltzmann_eV * temperature) <=? e)%float
                          && (e <=? boltzmann_eV * temperature)%float)%bool))
            (load_site_data input_data lo hi site_charge offset) flattened.
Proof.
  intros Hlimits Hne.
  destruct (flattened_site_data_nonempty input_data limits lo hi more site_charge "multi_site"
              temperature offset Hlimits Hne) as (m & Hm & Hflat).
  exists (map (form_continuum_sites_new.flatten_multi_site boltzmann_eV temperature)
            (load_site_data input_data lo hi site_charge offset)).
  split.
  - unfold form_continuum_sites_new.set_of_sites_from_input_data. rewrite Hflat. reflexivity.
  - apply Forall2_map_self. intros line.
    unfold flattened_by, form_continuum_sites_new.flatten_multi_site.
    rewrite mul_opp_l.
    destruct (_ && _)%bool; [|reflexivity].
    split; [reflexivity|apply same_but_energy_zeroed].
Qed.

(** When no record is loaded, the def has no check before [min]: the
    exception is the ValueError that [min] raises on an empty sequence. *)
Lemma def_no_records_raises_from_min
    input_data limits lo hi more defect_species site_charge core temperature offset :
  limits = lo :: hi :: more ->
  load_site_data input_data lo hi site_charge offset = [] ->
  form_continuum_sites_new.set_of_sites_from_input_data input_t species_t charge_t
      load_site_data site_from_input_file boltzmann_eV
      input_data limits defect_species site_charge core temperature offset
    = Raise (ValueError "min() arg is an empty sequence") /\
  raised_by_min_of_nothing (ValueError "min() arg is an empty sequence").
Proof.
  intros -> Hnone. split; [|reflexivity].
  unfold form_continuum_sites_new.set_of_sites_from_input_data,
    form_continuum_sites_new.flattened_site_data.
  cbn [list_getitem lookup list_lookup bind outcome_monad].
  now rewrite Hnone.
Qed.

End DefBelowReturn.

(** ** The constructor, as the file binds it *)


Lemma not_in_namespace (name : string) (names : list string) :
  forallb (fun n => negb (String.eqb name n)) names = true -> name ∉ names.
Proof.
  induction names as [|n names IH]; cbn; intros H Hin.
  - inversion Hin.
  - apply andb_true_iff in H as [Hn H]. apply elem_of_cons in Hin as [->|Hin].
    + now rewrite String.eqb_refl in Hn.
    + now apply IH.
Qed.

Lemma getattr_unbound (name : string) :
  name ∉ Layout.namespace_of "Set_of_Sites" Layout.set_of_sites_py ->
  getattr_Set_of_Sites name = Raise AttributeError.
Proof. intros H. unfold getattr_Set_of_Sites. now destruct (decide _). Qed.


Lemma below_return_of_form_continuum_sites_new (name : string) :
  name ∈ [ "set_of_sites_from_input_data"; "mirrored_set_of_sites_from_input_data";
           "core_width_analysis" ] ->
  defined_below_return "form_continuum_sites_new" name /\
  (name ∉ Layout.namespace_of "Set_of_Sites" Layout.set_of_sites_py) /\
  (name ∉ Layout.defined_by_module Layout.set_of_sites_py).
Proof.
  intros H. rewrite !elem_of_cons in H.
  destruct H as [->|[->|[->|H]]]; [| | |now apply elem_of_nil in H];
    (split; [split|split]);
    try (apply not_in_namespace; reflexivity);
    apply list_elem_of_In; vm_compute; tauto.
Qed.

Lemma call_of_unbound_name {arguments result : Type}
    (function : string -> arguments -> outcome result) (name : string) (a : arguments) :
  name ∉ Layout.namespace_of "Set_of_Sites" Layout.set_of_sites_py ->
  call_on_Set_of_Sites function name a = Raise AttributeError.
Proof. intros H. unfold call_on_Set_of_Sites. now rewrite getattr_unbound. Qed.

(** C7.  The def of [set_of_sites_from_input_data] is a statement of
    [form_continuum_sites_new] that stands below its return, not a statement
    of the class: the name is no attribute of [Set_of_Sites], and for every
    input a call with [core = 'single'] raises AttributeError when the name
    is looked up.  No set of sites is returned, so no energy is zeroed and
    none is kept. *)
Theorem single_core_call_raises_AttributeError
    (input_t species_t charge_t : Type)
    (function : string -> Call.arguments input_t species_t charge_t -> outcome Set_of_Sites)
    (input_data : input_t) (limits : list float) (defect_species : species_t)
    (site_charge : charge_t) (temperature offset : float) :
  defined_below_return "form_continuum_sites_new" "set_of_sites_from_input_data" /\
  ("set_of_sites_from_input_data"
     ∉ Layout.namespace_of "Set_of_Sites" Layout.set_of_sites_py) /\
  call_on_Set_of_Sites function "set_of_sites_from_input_data"
      (Call.mk input_data limits defect_species site_charge "single" temperature offset)
    = Raise AttributeError /\
  (forall flattened : Set_of_Sites,
     call_on_Set_of_Sites function "set_of_sites_from_input_data"
       (Call.mk input_data limits defect_species site_charge "single" temperature offset)
     <> Ok flattened).
Proof.
  destruct (below_return_of_form_continuum_sites_new "set_of_sites_from_input_data")
    as (Hbelow & Hclass & _); [rewrite !elem_of_cons; tauto|].
  split; [exact Hbelow|]. split; [exact Hclass|].
  rewrite (call_of_unbound_name function _ _ Hclass).
  split; [reflexivity|discriminate].
Qed.

(** C8.  As for [core = 'single']: for every input and temperature a call
    of [Set_of_Sites.set_of_sites_from_input_data] with
    [core = 'multi_site'] raises AttributeError when the name is looked up,
    the def being a statement of [form_continuum_sites_new] below its
    return.  No set of sites is returned, whatever energies lie within kT. *)
Theorem multi_site_core_call_raises_AttributeError
    (input_t species_t charge_t : Type)
    (function : string -> Call.arguments input_t species_t charge_t -> outcome Set_of_Sites)
    (input_data : input_t) (limits : list float) (defect_species : species_t)
    (site_charge : charge_t) (temperature offset : float) :
  defined_below_return "form_continuum_sites_new" "set_of_sites_from_input_data" /\
  ("set_of_sites_from_input_data"
     ∉ Layout.namespace_of "Set_of_Sites" Layout.set_of_sites_py) /\
  call_on_Set_of_Sites function "set_of_sites_from_input_data"
      (Call.mk input_data limits defect_species site_charge "multi_site" temperature offset)
    = Raise AttributeError /\
  (forall flattened : Set_of_Sites,
     call_on_Set_of_Sites function "set_of_sites_from_input_data"
       (Call.mk input_data limits defect_species site_charge "multi_site" temperature offset)
     <> Ok flattened).
Proof.
  destruct (below_return_of_form_continuum_sites_new "set_of_sites_from_input_data")
    as (Hbelow & Hclass & _); [rewrite !elem_of_cons; tauto|].
  split; [exact Hbelow|]. split; [exact Hclass|].
  rewrite (call_of_unbound_name function _ _ Hclass).
  split; [reflexivity|discriminate].
Qed.



(** * The scenarios *)

(** ** Aggregation on the five-point grid *)

(** The two sites of [Scenario], each with probability 0.5 and unit volumes:
    position 1 holds 0.5/1 + 0.5/1 = 1 and every other position 0. *)
Example calculate_defect_density_two_sites :
  calculate_defect_density GridAlignment.index_of_grid_at_x GridAlignment.phi_at_x
    (Scenario.two_sites 0.5 0.5) Scenario.grid Scenario.phi 300%float Scenario.arrays
  = (Ok 3, Scenario.arrays ++ [Nd1 [0; 1; 0; 0; 0]%float]).
Proof. vm_compute. reflexivity. Qed.

(** With probabilities 0.2 and 0.9, [calculate_probabilities] keeps 0.9. *)
Example calculate_probabilities_two_sites :
  calculate_probabilities GridAlignment.index_of_grid_at_x GridAlignment.phi_at_x
    (Scenario.two_sites 0.2 0.9) Scenario.grid Scenario.phi 300%float Scenario.arrays
  = (Ok 3, Scenario.arrays ++ [Nd1 [0; 0.9; 0; 0; 0]%float]).
Proof. vm_compute. reflexivity. Qed.

(** C3 on the five-point grid: the site at 0.96 is written last. *)
Lemma calculate_probabilities_last_writer_wins_witness :
  exists arr,
    calculate_probabilities GridAlignment.index_of_grid_at_x GridAlignment.phi_at_x
      (Scenario.two_sites 0.2 0.9) Scenario.grid Scenario.phi 300%float Scenario.arrays
    = (Ok 3, Scenario.arrays ++ [Nd1 arr]) /\
    arr !! 1 = Some 0.9%float.
Proof.
  destruct (calculate_probabilities_last_writer_wins
              GridAlignment.index_of_grid_at_x GridAlignment.phi_at_x
              (Scenario.two_sites 0.2 0.9) Scenario.grid Scenario.phi 300%float
              Scenario.arrays [0; 1; 2; 3; 4]%float (Nd1 [0; 0; 0; 0; 0]%float)
              [Scenario.site_p 0.2] (Scenario.site_q 0.9) [] 1)
    as (arr & p & Hrun & Hp & Hk).
  - reflexivity.
  - reflexivity.
  - repeat constructor; vm_compute; eauto.
  - reflexivity.
  - vm_compute. reflexivity.
  - constructor.
  - exists arr. split; [exact Hrun|]. injection Hp as <-. exact Hk.
Defined.

(** C4 on the five-point grid: the scenario of the claim. *)
Lemma calculate_defect_density_additive_witness :
  exists arr,
    calculate_defect_density GridAlignment.index_of_grid_at_x GridAlignment.phi_at_x
      (Scenario.two_sites 0.5 0.5) Scenario.grid Scenario.phi 300%float Scenario.arrays
    = (Ok 3, Scenario.arrays ++ [Nd1 arr]) /\
    length arr = 5 /\
    arr !! 0 = Some 0%float /\ arr !! 1 = Some 1%float /\ arr !! 2 = Some 0%float /\
    arr !! 3 = Some 0%float /\ arr !! 4 = Some 0%float.
Proof.
  destruct (calculate_defect_density_additive
              GridAlignment.index_of_grid_at_x GridAlignment.phi_at_x
              (Scenario.two_sites 0.5 0.5) Scenario.grid Scenario.phi 300%float
              Scenario.arrays [0; 1; 2; 3; 4]%float [1; 1; 1; 1; 1]%float
              (Nd1 [0; 0; 0; 0; 0]%float))
    as (arr & Hrun & Hlen & Hlook).
  - reflexivity.
  - reflexivity.
  - reflexivity.
  - reflexivity.
  - repeat constructor; vm_compute; eauto.
  - exists arr. split; [exact Hrun|]. split; [exact Hlen|].
    rewrite (Hlook 0 1%float eq_refl), (Hlook 1 1%float eq_refl), (Hlook 2 1%float eq_refl),
      (Hlook 3 1%float eq_refl), (Hlook 4 1%float eq_refl).
    vm_compute. repeat split.
Defined.

(** C6 on the sub-grid: the potential 30 is the one at coordinate 2 of the
    full grid (the sub-grid would give 20), the position and the volume 2
    are the sub-grid's, and the two contributions add up. *)
Lemma subgrid_calculate_defect_density_frames_witness :
  exists arr,
    subgrid_calculate_defect_density GridAlignment.index_of_grid_at_x GridAlignment.phi_at_x
      SubScenario.two_sites SubScenario.sub_grid SubScenario.full_grid SubScenario.phi
      300%float SubScenario.arrays
    = (Ok 5, SubScenario.arrays ++ [Nd1 arr]) /\
    length arr = 3 /\
    arr !! 0 = Some 0%float /\
    arr !! 1 = Some (30 / 100 / 2 + 30 / 100 / 2)%float /\
    arr !! 2 = Some 0%float.
Proof.
  destruct (subgrid_calculate_defect_density_frames
              GridAlignment.index_of_grid_at_x GridAlignment.phi_at_x
              SubScenario.two_sites SubScenario.sub_grid SubScenario.full_grid SubScenario.phi
              300%float SubScenario.arrays [1; 2; 3]%float (Nd1 [0; 1; 2; 3; 4]%float)
              [2; 2; 2]%float (Nd1 [10; 20; 30; 40; 50]%float))
    as [(arr & Hrun & Hlen & Hlook) _].
  - reflexivity.
  - reflexivity.
  - reflexivity.
  - reflexivity.
  - reflexivity.
  - repeat constructor; vm_compute; eauto.
  - exists arr. split; [exact Hrun|]. split; [exact Hlen|].
    rewrite (Hlook 0 2%float eq_refl), (Hlook 1 2%float eq_refl), (Hlook 2 2%float eq_refl).
    vm_compute. repeat split.
Defined.

(** C9 on the sub-grid scenario, the Grid being a plain object. *)
Lemma aggregation_leaves_inputs_unchanged_witness :
  leaves_inputs_unchanged
    (calculate_energies_on_grid GridAlignment.index_of_grid_at_x GridAlignment.energy_at_x
       plain_object_shape SubScenario.two_sites SubScenario.sub_grid SubScenario.phi)
    SubScenario.arrays /\
  leaves_inputs_unchanged
    (calculate_probabilities GridAlignment.index_of_grid_at_x GridAlignment.phi_at_x
       SubScenario.two_sites SubScenario.sub_grid SubScenario.phi 300%float)
    SubScenario.arrays /\
  leaves_inputs_unchanged
    (calculate_defect_density GridAlignment.index_of_grid_at_x GridAlignment.phi_at_x
       SubScenario.two_sites SubScenario.sub_grid SubScenario.phi 300%float)
    SubScenario.arrays /\
  leaves_inputs_unchanged
    (subgrid_calculate_defect_density GridAlignment.index_of_grid_at_x GridAlignment.phi_at_x
       SubScenario.two_sites SubScenario.sub_grid SubScenario.full_grid SubScenario.phi
       300%float)
    SubScenario.arrays.
Proof.
  apply (aggregation_leaves_inputs_unchanged
           GridAlignment.index_of_grid_at_x GridAlignment.phi_at_x GridAlignment.energy_at_x
           plain_object_shape SubScenario.two_sites SubScenario.sub_grid SubScenario.full_grid
           SubScenario.phi 300%float SubScenario.arrays);
    vm_compute; eauto.
Defined.

(** ** The def below the return, on three records *)

(** Under the loops of the def, energies [[-0.2, -0.2, 0.1]] with
    [core = 'single'] would become [[-0.2, -0.2, 0.0]]. *)
Example single_core_three_records :
  form_continuum_sites_new.flattened_site_data unit unit
    (Records.load [-0.2; -0.2; 0.1]%float) Records.boltzmann_eV
    tt Records.limits tt "single" 300%float 0%float
  = Ok (map Records.line_with [-0.2; -0.2; 0]%float).
Proof. vm_compute. reflexivity. Qed.

(** Energies [[-0.01, 0.03, -0.05]] with [core = 'multi_site'] and
    [kT = 0.025] would become [[0.0, 0.03, -0.05]], whatever constant and
    temperature have that product. *)
Example multi_site_core_three_records (boltzmann_eV temperature : float) :
  (boltzmann_eV * temperature)%float = 0.025%float ->
  form_continuum_sites_new.flattened_site_data unit unit
    (Records.load [-0.01; 0.03; -0.05]%float) boltzmann_eV
    tt Records.limits tt "multi_site" temperature 0%float
  = Ok (map Records.line_with [0; 0.03; -0.05]%float).
Proof.
  intros HkT.
  assert (Hstep : forall line,
             form_continuum_sites_new.flatten_multi_site boltzmann_eV temperature line =
             if ((- 0.025 <=? Line.item4 line)%float && (Line.item4 line <=? 0.025)%float)%bool
             then Line.set_item4 line 0%float else line).
  { intros line. unfold form_continuum_sites_new.flatten_multi_site.
    now rewrite mul_opp_l, HkT. }
  destruct (flattened_site_data_nonempty unit unit
              (Records.load [-0.01; 0.03; -0.05]%float) boltzmann_eV
              tt Records.limits (-1)%float 1%float [] tt "multi_site" temperature 0%float
              eq_refl) as (m & _ & ->); [discriminate|].
  f_equal. cbv zeta.
  change (String.eqb "multi_site" "single") with false.
  change (String.eqb "multi_site" "multi_site") with true.
  cbv iota. unfold Records.load. cbn [map]. rewrite !Hstep.
  vm_compute. reflexivity.
Qed.

(** A constant and a temperature with [kT = 0.025]. *)
Example multi_site_core_three_records_at_kT :
  form_continuum_sites_new.flattened_site_data unit unit
    (Records.load [-0.01; 0.03; -0.05]%float)
    0.0001220703125%float tt Records.limits tt "multi_site" 204.8%float 0%float
  = Ok (map Records.line_with [0; 0.03; -0.05]%float).
Proof. apply multi_site_core_three_records. vm_compute. reflexivity. Qed.

(** The flattening of the def on the three records, with the sites read
    off the records. *)
Example def_single_core_on_three_records :
  exists min_energy flattened,
    py_min [-0.2; -0.2; 0.1]%float = Ok min_energy /\
    In min_energy [-0.2; -0.2; 0.1]%float /\
    Forall (fun e => (e <? min_energy)%float = false) [-0.2; -0.2; 0.1]%float /\
    form_continuum_sites_new.set_of_sites_from_input_data unit unit unit
        (Records.load [-0.2; -0.2; 0.1]%float) Records.read_site Records.boltzmann_eV
        tt Records.limits tt tt "single" 300%float 0%float
      = Ok (mk_Set_of_Sites
              (map (fun line => Records.read_site line tt tt "single" 300%float) flattened)) /\
    Forall2 (flattened_by (fun e => (min_energy <? e)%float))
            (map Records.line_with [-0.2; -0.2; 0.1]%float) flattened /\
    Forall2 (fun line line' => Line.item4 line = min_energy -> line' = line)
            (map Records.line_with [-0.2; -0.2; 0.1]%float) flattened.
Proof.
  apply (def_single_core_zeroes_above_minimum unit unit unit
           (Records.load [-0.2; -0.2; 0.1]%float) Records.read_site Records.boltzmann_eV
           tt Records.limits (-1)%float 1%float [] tt tt 300%float 0%float).
  - reflexivity.
  - discriminate.
Qed.

Example def_multi_site_core_on_three_records :
  exists flattened,
    form_continuum_sites_new.set_of_sites_from_input_data unit unit unit
        (Records.load [-0.01; 0.03; -0.05]%float) Records.read_site 0.0001220703125%float
        tt Records.limits tt tt "multi_site" 204.8%float 0%float
      = Ok (mk_Set_of_Sites
              (map (fun line => Records.read_site line tt tt "multi_site" 204.8%float)
                   flattened)) /\
    Forall2 (flattened_by
               (fun e => ((- (0.0001220703125 * 204.8) <=? e)%float
                          && (e <=? 0.0001220703125 * 204.8)%float)%bool))
            (map Records.line_with [-0.01; 0.03; -0.05]%float) flattened.
Proof.
  apply (def_multi_site_core_zeroes_within_kT unit unit unit
           (Records.load [-0.01; 0.03; -0.05]%float) Records.read_site 0.0001220703125%float
           tt Records.limits (-1)%float 1%float [] tt tt 204.8%float 0%float).
  - reflexivity.
  - discriminate.
Qed.

Example def_no_records_on_empty_file :
  form_continuum_sites_new.set_of_sites_from_input_data unit unit unit
      (Records.load []) Records.read_site Records.boltzmann_eV
      tt Records.limits tt tt "single" 300%float 0%float
    = Raise (ValueError "min() arg is an empty sequence") /\
  raised_by_min_of_nothing (ValueError "min() arg is an empty sequence").
Proof.
  apply (def_no_records_raises_from_min unit unit unit
           (Records.load []) Records.read_site Records.boltzmann_eV
           tt Records.limits (-1)%float 1%float [] tt tt "single" 300%float 0%float);
    reflexivity.
Qed.

(** ** The call of the constructor *)


(** ** Concatenation *)

(** C10 with a plain list of sites on the right. *)
Lemma add_requires_Set_of_Sites_witness :
  __add__ (Scenario.two_sites 0.5 0.5)
          (PyList [Scenario.site_p 0.5; Scenario.site_q 0.5]) = Raise TypeError.
Proof.
  apply (proj1 (add_requires_Set_of_Sites (Scenario.two_sites 0.5 0.5))). reflexivity.
Defined.

Example add_two_sets :
  __add__ (mk_Set_of_Sites [Scenario.site_p 0.5])
          (PySet_of_Sites (mk_Set_of_Sites [Scenario.site_q 0.5]))
  = Ok (Scenario.two_sites 0.5 0.5).
Proof. reflexivity. Qed.

(** * Further properties of the collection *)

Lemma add_sets (a b : Set_of_Sites) :
  __add__ a (PySet_of_Sites b) = Ok (mk_Set_of_Sites (sites a ++ sites b)).
Proof. reflexivity. Qed.

Lemma getitem_nonneg self i :
  (0 <= i < Z.of_nat (length (sites self)))%Z ->
  exists site, sites self !! Z.to_nat i = Some site /\ __getitem__ self i = Ok site.
Proof.
  intros Hi. unfold __getitem__. rewrite slot_in_range by exact Hi.
  destruct (lookup_lt_is_Some_2 (sites self) (Z.to_nat i)) as [site Hsite]; [lia|].
  exists site. now rewrite Hsite.
Qed.

Lemma slot_negative n i :
  (- Z.of_nat n <= i < 0)%Z -> slot n i = slot n (i + Z.of_nat n).
Proof.
  intros Hi. rewrite (slot_in_range n (i + Z.of_nat n)) by lia.
  unfold slot. destruct (Z.leb_spec 0 i); [lia|].
  destruct (Z.leb_spec (- Z.of_nat n) i); [reflexivity|lia].
Qed.

Lemma slot_outside n i : (i < - Z.of_nat n \/ Z.of_nat n <= i)%Z -> slot n i = None.
Proof.
  intros [Hi|Hi]; [|now apply slot_beyond].
  unfold slot. destruct (Z.leb_spec 0 i); [lia|].
  destruct (Z.leb_spec (- Z.of_nat n) i); [lia|reflexivity].
Qed.

(** X1.  [a + b] of two Set_of_Sites always succeeds and iterates over the
    sites of [a], then those of [b]; [+] is associative, and the empty set
    is its identity on both sides. *)
Theorem add_concatenates_in_order (a b c : Set_of_Sites) :
  (exists ab, __add__ a (PySet_of_Sites b) = Ok ab /\
              __iter__ ab = __iter__ a ++ __iter__ b) /\
  (ab <- __add__ a (PySet_of_Sites b) ;; __add__ ab (PySet_of_Sites c))
  = (bc <- __add__ b (PySet_of_Sites c) ;; __add__ a (PySet_of_Sites bc)) /\
  __add__ a (PySet_of_Sites (mk_Set_of_Sites [])) = Ok a /\
  __add__ (mk_Set_of_Sites []) (PySet_of_Sites a) = Ok a.
Proof.
  split; [|split; [|split]].
  - eexists. split; [apply add_sets|reflexivity].
  - rewrite !add_sets. cbn [bind outcome_monad]. rewrite !add_sets. cbn [sites].
    now rewrite app_assoc.
  - rewrite add_sets. cbn [sites]. rewrite app_nil_r. now destruct a.
  - rewrite add_sets. cbn [sites app]. now destruct a.
Qed.

(** X2.  [s[i]] returns a site exactly for [-len(s) <= i < len(s)]: for
    [i >= 0] it is the site that iteration yields at position [i], a
    negative [i] stands for [i + len(s)], and every other index raises
    IndexError. *)
Theorem getitem_bounds (self : Set_of_Sites) (i : Z) :
  ((0 <= i < Z.of_nat (length (sites self)))%Z ->
     exists site, __iter__ self !! Z.to_nat i = Some site /\ __getitem__ self i = Ok site) /\
  ((- Z.of_nat (length (sites self)) <= i < 0)%Z ->
     __getitem__ self i = __getitem__ self (i + Z.of_nat (length (sites self))) /\
     exists site, __getitem__ self i = Ok site) /\
  ((i < - Z.of_nat (length (sites self)) \/ Z.of_nat (length (sites self)) <= i)%Z ->
     __getitem__ self i = Raise IndexError).
Proof.
  split; [|split].
  - apply getitem_nonneg.
  - intros Hi.
    assert (E : __getitem__ self i = __getitem__ self (i + Z.of_nat (length (sites self))))
      by (unfold __getitem__; now rewrite slot_negative).
    split; [exact E|]. rewrite E.
    destruct (getitem_nonneg self (i + Z.of_nat (length (sites self)))) as (site & _ & Hs);
      [lia|eauto].
  - intros Hi. unfold __getitem__. now rewrite slot_outside.
Qed.

(** X3.  Indexing a sum: the first [len(a)] indices of [a + b] are those of
    [a], the next [len(b)] are those of [b] shifted by [len(a)], and the
    negative indices down to [-len(b)] are those of [b]. *)
Theorem getitem_of_sum (a b : Set_of_Sites) (i : Z) :
  exists ab,
    __add__ a (PySet_of_Sites b) = Ok ab /\
    ((0 <= i < Z.of_nat (length (sites a)))%Z -> __getitem__ ab i = __getitem__ a i) /\
    ((Z.of_nat (length (sites a)) <= i
      < Z.of_nat (length (sites a)) + Z.of_nat (length (sites b)))%Z ->
       __getitem__ ab i = __getitem__ b (i - Z.of_nat (length (sites a)))) /\
    ((- Z.of_nat (length (sites b)) <= i < 0)%Z -> __getitem__ ab i = __getitem__ b i).
Proof.
  exists (mk_Set_of_Sites (sites a ++ sites b)). split; [apply add_sets|].
  assert (Hright : forall j,
             (Z.of_nat (length (sites a)) <= j
              < Z.of_nat (length (sites a)) + Z.of_nat (length (sites b)))%Z ->
             __getitem__ (mk_Set_of_Sites (sites a ++ sites b)) j
             = __getitem__ b (j - Z.of_nat (length (sites a)))).
  { intros j Hj. unfold __getitem__. cbn [sites].
    rewrite (slot_in_range (length (sites a ++ sites b)) j) by (rewrite length_app; lia).
    rewrite (slot_in_range (length (sites b))) by lia.
    rewrite lookup_app_r by lia.
    replace (Z.to_nat j - length (sites a)) with (Z.to_nat (j - Z.of_nat (length (sites a))))
      by lia.
    reflexivity. }
  split; [|split].
  - intros Hi. unfold __getitem__. cbn [sites].
    rewrite (slot_in_range (length (sites a ++ sites b)) i) by (rewrite length_app; lia).
    rewrite (slot_in_range (length (sites a))) by lia.
    now rewrite lookup_app_l by lia.
  - apply Hright.
  - intros Hi.
    transitivity (__getitem__ (mk_Set_of_Sites (sites a ++ sites b))
                    (i + Z.of_nat (length (sites a ++ sites b)))).
    { unfold __getitem__. cbn [sites]. now rewrite slot_negative by (rewrite length_app; lia). }
    rewrite Hright by (rewrite length_app; lia).
    transitivity (__getitem__ b (i + Z.of_nat (length (sites b)))).
    { f_equal. rewrite length_app. lia. }
    unfold __getitem__. now rewrite <- slot_negative by lia.
Qed.

(** X4.  [subset(label)] holds exactly the sites of the set that carry the
    label, in the order of the set; taking the same subset of it again
    changes nothing, and its subset for another label is empty. *)
Theorem subset_selects_by_label (self : Set_of_Sites) (label : string) :
  (forall s, s ∈ subset self label <-> s ∈ sites self /\ Site.label s = label) /\
  subset self label `sublist_of` sites self /\
  subset (mk_Set_of_Sites (subset self label)) label = subset self label /\
  (forall other, other <> label ->
     subset (mk_Set_of_Sites (subset self label)) other = []).
Proof.
  unfold subset. cbn [sites]. split; [|split; [|split]].
  - intros s. rewrite list_elem_of_filter. tauto.
  - apply sublist_filter.
  - apply list_filter_filter_r. tauto.
  - intros other Hother. rewrite list_filter_filter.
    induction (sites self) as [|s l IH]; [reflexivity|].
    rewrite filter_cons. destruct (decide _) as [[H1 H2]|_]; [congruence|exact IH].
Qed.

(** X5.  [subset] and [get_coords] distribute over [+], and [get_coords]
    returns the coordinates of the sites of [subset], in the same order. *)
Theorem subset_of_sum (a b : Set_of_Sites) (label : string) :
  exists ab,
    __add__ a (PySet_of_Sites b) = Ok ab /\
    subset ab label = subset a label ++ subset b label /\
    get_coords ab label = get_coords a label ++ get_coords b label /\
    get_coords ab label = map Site.x (subset ab label) /\
    length (get_coords ab label) = length (subset a label) + length (subset b label).
Proof.
  exists (mk_Set_of_Sites (sites a ++ sites b)). split; [apply add_sets|].
  unfold subset, get_coords. cbn [sites]. rewrite filter_app, map_app.
  repeat split. now rewrite length_app, !length_map.
Qed.

(** * Further properties of the aggregation methods *)

Lemma run_steps_app (f : step) (l1 l2 : list Site.t) (a : ndarray) :
  run_steps f (l1 ++ l2) a =
  match run_steps f l1 a with
  | (Ok _, a') => run_steps f l2 a'
  | (Raise e, a') => (Raise e, a')
  end.
Proof.
  revert a. induction l1 as [|s l1 IH]; intros a; [reflexivity|].
  cbn. destruct (f s a) as [a'|e]; [apply IH|reflexivity].
Qed.

(** The loop stops at the first site whose iteration raises. *)
Lemma run_steps_stops (f : step) before s after a a1 e :
  run_steps f before a = (Ok tt, a1) ->
  f s a1 = Raise e ->
  run_steps f (before ++ s :: after) a = (Raise e, a1).
Proof.
  intros Hbefore Hs. rewrite run_steps_app, Hbefore. cbn. now rewrite Hs.
Qed.

Lemma as_item_not_one (l : list float) : length l <> 1 -> as_item (Nd1 l) = None.
Proof. destruct l as [|y [|z l]]; cbn; intros; [reflexivity|lia|reflexivity]. Qed.

Lemma fold_left_written {A} (c : A -> float) (l : list A) (x0 : float) :
  fold_left (fun _ a => c a) l x0 = x0 \/
  exists a, a ∈ l /\ fold_left (fun _ a => c a) l x0 = c a.
Proof.
  induction l as [|a l IH] using rev_ind; [now left|].
  right. exists a. split; [apply elem_of_app; right; now left|].
  now rewrite fold_left_app.
Qed.

Section StepErrors.

Variable index_of_grid_at_x : ndarray -> float -> Z.
Variable phi_at_x : ndarray -> ndarray -> float -> float.

Lemma probability_step_index_error xs ph temp s arr :
  length arr = length xs ->
  nearest index_of_grid_at_x (Nd1 xs) (length xs) s = None ->
  probability_step index_of_grid_at_x phi_at_x (Nd1 xs) ph temp s (Nd1 arr) = Raise IndexError.
Proof.
  intros Hlen Hs. unfold probability_step, setitem_nd.
  rewrite Hlen. unfold nearest in Hs. now rewrite Hs.
Qed.

Lemma density_step_index_error xs px vols ph temp s arr :
  length arr = length xs ->
  nearest index_of_grid_at_x (Nd1 xs) (length xs) s = None ->
  density_step index_of_grid_at_x phi_at_x (Nd1 xs) px vols ph temp s (Nd1 arr) = Raise IndexError.
Proof.
  intros Hlen Hs. unfold density_step, getitem_nd.
  rewrite Hlen. unfold nearest in Hs. now rewrite Hs.
Qed.

Lemma probability_step_value_error xs ph temp s arr :
  length arr = length xs ->
  is_Some (nearest index_of_grid_at_x (Nd1 xs) (length xs) s) ->
  length (Site.probabilities s (phi_at_x ph (Nd1 xs) (Site.x s)) temp) <> 1 ->
  probability_step index_of_grid_at_x phi_at_x (Nd1 xs) ph temp s (Nd1 arr) = Raise setting_with_a_sequence.
Proof.
  intros Hlen [k Hk] Hp. unfold probability_step, setitem_nd.
  rewrite Hlen. unfold nearest in Hk. rewrite Hk.
  unfold np_asarray. now rewrite as_item_not_one.
Qed.

Lemma density_step_value_error xs px vs ph temp s arr :
  length arr = length xs ->
  length vs = length xs ->
  is_Some (nearest index_of_grid_at_x (Nd1 xs) (length xs) s) ->
  length (Site.probabilities s (phi_at_x ph px (Site.x s)) temp) <> 1 ->
  density_step index_of_grid_at_x phi_at_x (Nd1 xs) px (Nd1 vs) ph temp s (Nd1 arr) = Raise setting_with_a_sequence.
Proof.
  intros Hlen Hvs [k Hk] Hp. unfold density_step, getitem_nd, setitem_nd.
  rewrite Hlen, Hvs. unfold nearest in Hk. rewrite Hk.
  assert (Hlt : k < length xs) by (eapply slot_lt; exact Hk).
  destruct (lookup_lt_is_Some_2 arr k) as [old Hold]; [lia|].
  destruct (lookup_lt_is_Some_2 vs k) as [vol Hvol]; [lia|].
  rewrite Hold, Hvol. cbn [bind outcome_monad].
  unfold np_asarray, np_radd, np_truediv, np_map.
  rewrite as_item_not_one; [reflexivity|]. now rewrite !length_map.
Qed.

End StepErrors.

Section SitesAt.

Variable index_of_grid_at_x : ndarray -> float -> Z.

Lemma sites_at_app gx n k (l1 l2 : list Site.t) :
  sites_at index_of_grid_at_x gx n k (l1 ++ l2)
  = sites_at index_of_grid_at_x gx n k l1 ++ sites_at index_of_grid_at_x gx n k l2.
Proof. unfold sites_at. apply filter_app. Qed.

Lemma elem_of_sites_at gx n k (l : list Site.t) s :
  s ∈ sites_at index_of_grid_at_x gx n k l <->
  nearest index_of_grid_at_x gx n s = Some k /\ s ∈ l.
Proof. unfold sites_at. rewrite list_elem_of_filter. tauto. Qed.

Lemma nearest_negative gx n s :
  (- Z.of_nat n <= index_of_grid_at_x gx (Site.x s) < 0)%Z ->
  nearest index_of_grid_at_x gx n s
  = Some (Z.to_nat (index_of_grid_at_x gx (Site.x s) + Z.of_nat n)).
Proof.
  intros Hi. unfold nearest. rewrite slot_negative by exact Hi.
  apply slot_in_range. lia.
Qed.

Lemma sites_at_one gx n k k' (s : Site.t) :
  nearest index_of_grid_at_x gx n s = Some k ->
  sites_at index_of_grid_at_x gx n k' [s] = if decide (k' = k) then [s] else [].
Proof.
  intros Hs. unfold sites_at. rewrite filter_cons, filter_nil, Hs.
  destruct (decide (Some k = Some k')) as [E|E], (decide (k' = k)) as [E'|E'];
    congruence.
Qed.

End SitesAt.

Section AggregationFurther.

Variable index_of_grid_at_x : ndarray -> float -> Z.
Variable phi_at_x : ndarray -> ndarray -> float -> float.
Variable energy_at_x : list float -> ndarray -> float -> float.
Variable np_shape_of_grid : Grid.t -> shape.

Local Abbreviation nearest := (nearest index_of_grid_at_x).
Local Abbreviation sites_at := (sites_at index_of_grid_at_x).
Local Abbreviation probability_step := (probability_step index_of_grid_at_x phi_at_x).
Local Abbreviation density_step := (density_step index_of_grid_at_x phi_at_x).

(** The sites whose store succeeds: the index addresses a gridpoint and the
    site returns one probability, for the potential interpolated against
    the coordinates [px]. *)
Definition stores_one (xs : list float) (ph px : ndarray) (temp : float) (s : Site.t) : Prop :=
  is_Some (nearest (Nd1 xs) (length xs) s) /\
  one_probability s (phi_at_x ph px (Site.x s)) temp.

(** X6.  On a set without sites no store is made: the three methods that
    allocate from [grid.x] return an array of zeros of its shape, reading
    neither the volumes nor the potential, and
    [calculate_energies_on_grid] returns zeros of the shape numpy gives the
    Grid object, without raising. *)
Theorem aggregation_of_no_sites self grid full_grid phi temp h gx :
  sites self = [] ->
  h !! Grid.x grid = Some gx ->
  calculate_energies_on_grid index_of_grid_at_x energy_at_x np_shape_of_grid self grid phi h
    = (Ok (length h), h ++ [np_zeros (np_shape_of_grid grid)]) /\
  calculate_probabilities index_of_grid_at_x phi_at_x self grid phi temp h
    = (Ok (length h), h ++ [np_zeros (np_shape gx)]) /\
  calculate_defect_density index_of_grid_at_x phi_at_x self grid phi temp h
    = (Ok (length h), h ++ [np_zeros (np_shape gx)]) /\
  subgrid_calculate_defect_density index_of_grid_at_x phi_at_x self grid full_grid phi temp h
    = (Ok (length h), h ++ [np_zeros (np_shape gx)]).
Proof.
  intros Hnone Hgx.
  unfold calculate_energies_on_grid, calculate_probabilities, calculate_defect_density,
    subgrid_calculate_defect_density.
  rewrite Hnone, !(bind_ok _ _ _ _ _ (np_zeros_like_ok _ _ _ Hgx)).
  repeat split.
Qed.

(** What the three methods that allocate from [grid.x] return when the loop
    stops at the site [s] after the sites [before]. *)
Lemma loops_stop_at self grid full_grid phi temp h xs fx vs ph before s after e :
  h !! Grid.x grid = Some (Nd1 xs) ->
  h !! Grid.x full_grid = Some fx ->
  h !! Grid.volumes grid = Some (Nd1 vs) ->
  length vs = length xs ->
  h !! phi = Some ph ->
  sites self = before ++ s :: after ->
  Forall (fun s' => stores_one xs ph (Nd1 xs) temp s' /\ stores_one xs ph fx temp s') before ->
  (forall arr, length arr = length xs ->
     probability_step (Nd1 xs) ph temp s (Nd1 arr) = Raise e /\
     density_step (Nd1 xs) (Nd1 xs) (Nd1 vs) ph temp s (Nd1 arr) = Raise e /\
     density_step (Nd1 xs) fx (Nd1 vs) ph temp s (Nd1 arr) = Raise e) ->
  (calculate_probabilities index_of_grid_at_x phi_at_x self grid phi temp h).1 = Raise e /\
  (calculate_defect_density index_of_grid_at_x phi_at_x self grid phi temp h).1 = Raise e /\
  (subgrid_calculate_defect_density index_of_grid_at_x phi_at_x
     self grid full_grid phi temp h).1 = Raise e.
Proof using index_of_grid_at_x phi_at_x.
  intros Hgx Hfx Hvols Hlen Hph Hsplit Hbefore Hs.
  assert (Hb1 : Forall (fun s' => is_Some (nearest (Nd1 xs) (length xs) s') /\
                  one_probability s' (phi_at_x ph (Nd1 xs) (Site.x s')) temp) before)
    by (eapply Forall_impl; [exact Hbefore|]; intros s' [[H1 H2] [H3 H4]]; split; assumption).
  assert (Hb2 : Forall (fun s' => is_Some (nearest (Nd1 xs) (length vs) s') /\
                  one_probability s' (phi_at_x ph (Nd1 xs) (Site.x s')) temp) before)
    by (rewrite Hlen; exact Hb1).
  assert (Hb3 : Forall (fun s' => is_Some (nearest (Nd1 xs) (length vs) s') /\
                  one_probability s' (phi_at_x ph fx (Site.x s')) temp) before)
    by (rewrite Hlen; eapply Forall_impl; [exact Hbefore|];
        intros s' [[H1 H2] [H3 H4]]; split; assumption).
  split; [|split].
  - rewrite (calculate_probabilities_run _ _ self grid phi temp h (Nd1 xs) ph Hgx Hph).
    cbn zeta. cbn [np_shape]. rewrite Hsplit.
    destruct (probability_loop _ _ (Nd1 xs) ph temp (length xs) before Hb1)
      as (arr1 & Hrun & Hl & _).
    rewrite (run_steps_stops _ before s after _ (Nd1 arr1) e Hrun (proj1 (Hs arr1 Hl))).
    reflexivity.
  - rewrite (calculate_defect_density_run _ _ self grid phi temp h (Nd1 xs) (Nd1 vs) ph
               Hgx Hvols Hph).
    cbn zeta. cbn [np_shape]. rewrite Hsplit, <- Hlen.
    destruct (density_loop _ _ (Nd1 xs) (Nd1 xs) vs ph temp before Hb2)
      as (arr1 & Hrun & Hl & _).
    rewrite Hlen in Hl.
    rewrite (run_steps_stops _ before s after _ (Nd1 arr1) e Hrun
               (proj1 (proj2 (Hs arr1 Hl)))).
    reflexivity.
  - rewrite (subgrid_calculate_defect_density_run _ _ self grid full_grid phi temp h
               (Nd1 xs) fx (Nd1 vs) ph Hgx Hfx Hvols Hph).
    cbn zeta. cbn [np_shape]. rewrite Hsplit, <- Hlen.
    destruct (density_loop _ _ (Nd1 xs) fx vs ph temp before Hb3)
      as (arr1 & Hrun & Hl & _).
    rewrite Hlen in Hl.
    rewrite (run_steps_stops _ before s after _ (Nd1 arr1) e Hrun
               (proj2 (proj2 (Hs arr1 Hl)))).
    reflexivity.
Qed.

(** X7.  A site whose index addresses no gridpoint stops each of the three
    methods that allocate from [grid.x] with IndexError: when the stores of
    the sites before it succeed, the call raises and returns no array,
    whatever sites follow. *)
Theorem index_outside_grid_raises
    self grid full_grid phi temp h xs fx vs ph before s after :
  h !! Grid.x grid = Some (Nd1 xs) ->
  h !! Grid.x full_grid = Some fx ->
  h !! Grid.volumes grid = Some (Nd1 vs) ->
  length vs = length xs ->
  h !! phi = Some ph ->
  sites self = before ++ s :: after ->
  Forall (fun s' => stores_one xs ph (Nd1 xs) temp s' /\ stores_one xs ph fx temp s') before ->
  nearest (Nd1 xs) (length xs) s = None ->
  (calculate_probabilities index_of_grid_at_x phi_at_x self grid phi temp h).1
    = Raise IndexError /\
  (calculate_defect_density index_of_grid_at_x phi_at_x self grid phi temp h).1
    = Raise IndexError /\
  (subgrid_calculate_defect_density index_of_grid_at_x phi_at_x
     self grid full_grid phi temp h).1 = Raise IndexError.
Proof.
  intros Hgx Hfx Hvols Hlen Hph Hsplit Hbefore Hs.
  apply (loops_stop_at self grid full_grid phi temp h xs fx vs ph before s after _
           Hgx Hfx Hvols Hlen Hph Hsplit Hbefore).
  intros arr Harr. split; [|split].
  - now apply probability_step_index_error.
  - now apply density_step_index_error.
  - now apply density_step_index_error.
Qed.

(** X8.  A site whose [probabilities] call returns no value or several
    stops each of the three methods with the ValueError of numpy, "setting
    an array element with a sequence.": an array element takes one number.
    The index is looked at first, so this is the error only when the index
    addresses a gridpoint. *)
Theorem several_probabilities_raise
    self grid full_grid phi temp h xs fx vs ph before s after :
  h !! Grid.x grid = Some (Nd1 xs) ->
  h !! Grid.x full_grid = Some fx ->
  h !! Grid.volumes grid = Some (Nd1 vs) ->
  length vs = length xs ->
  h !! phi = Some ph ->
  sites self = before ++ s :: after ->
  Forall (fun s' => stores_one xs ph (Nd1 xs) temp s' /\ stores_one xs ph fx temp s') before ->
  is_Some (nearest (Nd1 xs) (length xs) s) ->
  length (Site.probabilities s (phi_at_x ph (Nd1 xs) (Site.x s)) temp) <> 1 ->
  length (Site.probabilities s (phi_at_x ph fx (Site.x s)) temp) <> 1 ->
  (calculate_probabilities index_of_grid_at_x phi_at_x self grid phi temp h).1
    = Raise setting_with_a_sequence /\
  (calculate_defect_density index_of_grid_at_x phi_at_x self grid phi temp h).1
    = Raise setting_with_a_sequence /\
  (subgrid_calculate_defect_density index_of_grid_at_x phi_at_x
     self grid full_grid phi temp h).1 = Raise setting_with_a_sequence.
Proof.
  intros Hgx Hfx Hvols Hlen Hph Hsplit Hbefore Hs Hp1 Hp2.
  apply (loops_stop_at self grid full_grid phi temp h xs fx vs ph before s after _
           Hgx Hfx Hvols Hlen Hph Hsplit Hbefore).
  intros arr Harr. split; [|split].
  - now apply probability_step_value_error.
  - now apply density_step_value_error.
  - now apply density_step_value_error.
Qed.

Lemma stores_one_Forall xs ph px temp ss :
  Forall (stores_one xs ph px temp) ss ->
  Forall (fun s => is_Some (nearest (Nd1 xs) (length xs) s) /\
                   one_probability s (phi_at_x ph px (Site.x s)) temp) ss.
Proof. intros H. eapply Forall_impl; [exact H|]. intros s Hs. exact Hs. Qed.

(** X9.  Every entry of the array of [calculate_probabilities] is the zero
    it was allocated with or the probability of a site of the set whose
    index addresses it; so when every site's probability lies in [[0, 1]],
    every entry does. *)
Theorem probabilities_are_zero_or_of_a_site self grid phi temp h xs ph :
  h !! Grid.x grid = Some (Nd1 xs) ->
  h !! phi = Some ph ->
  Forall (stores_one xs ph (Nd1 xs) temp) (sites self) ->
  exists arr,
    calculate_probabilities index_of_grid_at_x phi_at_x self grid phi temp h
      = (Ok (length h), h ++ [Nd1 arr]) /\
    (forall k e, arr !! k = Some e ->
       e = 0%float \/
       exists s, s ∈ sites self /\ nearest (Nd1 xs) (length xs) s = Some k /\
                 Site.probabilities s (phi_at_x ph (Nd1 xs) (Site.x s)) temp = [e]) /\
    (Forall (fun s =>
               (0 <=? the_probability s (phi_at_x ph (Nd1 xs) (Site.x s)) temp)%float = true /\
               (the_probability s (phi_at_x ph (Nd1 xs) (Site.x s)) temp <=? 1)%float = true)
            (sites self) ->
     Forall (fun e => (0 <=? e)%float = true /\ (e <=? 1)%float = true) arr).
Proof.
  intros Hgx Hph Hss. pose proof (stores_one_Forall _ _ _ _ _ Hss) as Hss'.
  destruct (calculate_probabilities_entries _ _ self grid phi temp h xs ph Hgx Hph Hss')
    as (arr & Hrun & Hlen & Hlook).
  assert (Hentry : forall k e, arr !! k = Some e ->
             e = 0%float \/
             exists s, s ∈ sites self /\ nearest (Nd1 xs) (length xs) s = Some k /\
                       e = the_probability s (phi_at_x ph (Nd1 xs) (Site.x s)) temp).
  { intros k e Hk. assert (Hlt : k < length xs) by (rewrite <- Hlen; eapply lookup_lt_Some; eauto).
    rewrite (Hlook k Hlt) in Hk. injection Hk as <-.
    destruct (fold_left_written
                (fun s => the_probability s (phi_at_x ph (Nd1 xs) (Site.x s)) temp)
                (sites_at (Nd1 xs) (length xs) k (sites self)) 0%float) as [E|(s & Hs & E)].
    - now left.
    - right. exists s. apply elem_of_sites_at in Hs as [Hk Hin]. now repeat split. }
  exists arr. split; [exact Hrun|]. split.
  - intros k e Hk. destruct (Hentry k e Hk) as [E|(s & Hin & Hs & E)]; [now left|].
    right. exists s. split; [exact Hin|]. split; [exact Hs|]. rewrite E.
    apply one_probability_eq.
    rewrite Forall_forall in Hss. exact (proj2 (Hss s Hin)).
  - intros Hunit. apply Forall_lookup. intros k e Hk.
    destruct (Hentry k e Hk) as [->|(s & Hin & _ & ->)]; [split; reflexivity|].
    rewrite Forall_forall in Hunit. exact (Hunit s Hin).
Qed.

(** X10.  [calculate_probabilities] of a sum [a + b]: an entry that some
    site of [b] is written to is the entry of [calculate_probabilities] of
    [b]; every other entry is that of [a]. *)
Theorem calculate_probabilities_of_sum (a b : Set_of_Sites) grid phi temp h xs ph :
  h !! Grid.x grid = Some (Nd1 xs) ->
  h !! phi = Some ph ->
  Forall (stores_one xs ph (Nd1 xs) temp) (sites a) ->
  Forall (stores_one xs ph (Nd1 xs) temp) (sites b) ->
  exists ab arr_a arr_b arr_ab,
    __add__ a (PySet_of_Sites b) = Ok ab /\
    calculate_probabilities index_of_grid_at_x phi_at_x a grid phi temp h
      = (Ok (length h), h ++ [Nd1 arr_a]) /\
    calculate_probabilities index_of_grid_at_x phi_at_x b grid phi temp h
      = (Ok (length h), h ++ [Nd1 arr_b]) /\
    calculate_probabilities index_of_grid_at_x phi_at_x ab grid phi temp h
      = (Ok (length h), h ++ [Nd1 arr_ab]) /\
    forall k, k < length xs ->
      arr_ab !! k = match sites_at (Nd1 xs) (length xs) k (sites b) with
                    | [] => arr_a !! k
                    | _ :: _ => arr_b !! k
                    end.
Proof.
  intros Hgx Hph Ha Hb.
  pose proof (stores_one_Forall _ _ _ _ _ Ha) as Ha'.
  pose proof (stores_one_Forall _ _ _ _ _ Hb) as Hb'.
  assert (Hab' : Forall (fun s => is_Some (nearest (Nd1 xs) (length xs) s) /\
                    one_probability s (phi_at_x ph (Nd1 xs) (Site.x s)) temp)
                   (sites (mk_Set_of_Sites (sites a ++ sites b))))
    by (cbn [sites]; apply Forall_app; now split).
  destruct (calculate_probabilities_entries _ _ a grid phi temp h xs ph Hgx Hph Ha')
    as (arr_a & Hrun_a & _ & Hlook_a).
  destruct (calculate_probabilities_entries _ _ b grid phi temp h xs ph Hgx Hph Hb')
    as (arr_b & Hrun_b & _ & Hlook_b).
  destruct (calculate_probabilities_entries _ _ _ grid phi temp h xs ph Hgx Hph Hab')
    as (arr_ab & Hrun_ab & _ & Hlook_ab).
  exists (mk_Set_of_Sites (sites a ++ sites b)), arr_a, arr_b, arr_ab.
  split; [apply add_sets|]. split; [exact Hrun_a|]. split; [exact Hrun_b|].
  split; [exact Hrun_ab|].
  intros k Hk. rewrite (Hlook_ab k Hk), (Hlook_a k Hk), (Hlook_b k Hk). cbn [sites].
  rewrite sites_at_app, fold_left_app.
  destruct (sites_at (Nd1 xs) (length xs) k (sites b)) as [|s l] eqn:Eb; [reflexivity|].
  reflexivity.
Qed.

(** X11.  [calculate_defect_density] of a sum [a + b] goes on from the
    array of [a]: each entry is the entry of [calculate_defect_density] of
    [a] with the contributions probability / volume of the sites of [b]
    written there added to it, one after the other. *)
Theorem calculate_defect_density_of_sum (a b : Set_of_Sites) grid phi temp h xs vs ph :
  h !! Grid.x grid = Some (Nd1 xs) ->
  h !! Grid.volumes grid = Some (Nd1 vs) ->
  length vs = length xs ->
  h !! phi = Some ph ->
  Forall (stores_one xs ph (Nd1 xs) temp) (sites a) ->
  Forall (stores_one xs ph (Nd1 xs) temp) (sites b) ->
  exists ab arr_a arr_ab,
    __add__ a (PySet_of_Sites b) = Ok ab /\
    calculate_defect_density index_of_grid_at_x phi_at_x a grid phi temp h
      = (Ok (length h), h ++ [Nd1 arr_a]) /\
    calculate_defect_density index_of_grid_at_x phi_at_x ab grid phi temp h
      = (Ok (length h), h ++ [Nd1 arr_ab]) /\
    forall k vol from_a, vs !! k = Some vol -> arr_a !! k = Some from_a ->
      arr_ab !! k =
        Some (fold_left PrimFloat.add
                (map (fun s =>
                        (the_probability s (phi_at_x ph (Nd1 xs) (Site.x s)) temp / vol)%float)
                     (sites_at (Nd1 xs) (length xs) k (sites b)))
                from_a).
Proof.
  intros Hgx Hvols Hlen Hph Ha Hb.
  pose proof (stores_one_Forall _ _ _ _ _ Ha) as Ha'.
  pose proof (stores_one_Forall _ _ _ _ _ Hb) as Hb'.
  assert (Hab' : Forall (fun s => is_Some (nearest (Nd1 xs) (length xs) s) /\
                    one_probability s (phi_at_x ph (Nd1 xs) (Site.x s)) temp)
                   (sites (mk_Set_of_Sites (sites a ++ sites b))))
    by (cbn [sites]; apply Forall_app; now split).
  destruct (subgrid_calculate_defect_density_entries _ _ a grid grid phi temp h
              xs (Nd1 xs) vs ph Hgx Hgx Hvols Hlen Hph Ha') as (arr_a & Hrun_a & _ & Hlook_a).
  destruct (subgrid_calculate_defect_density_entries _ _ _ grid grid phi temp h
              xs (Nd1 xs) vs ph Hgx Hgx Hvols Hlen Hph Hab') as (arr_ab & Hrun_ab & _ & Hlook_ab).
  rewrite subgrid_on_one_grid in Hrun_a, Hrun_ab.
  exists (mk_Set_of_Sites (sites a ++ sites b)), arr_a, arr_ab.
  split; [apply add_sets|]. split; [exact Hrun_a|]. split; [exact Hrun_ab|].
  intros k vol from_a Hvol Hfrom. rewrite (Hlook_ab k vol Hvol). f_equal.
  rewrite (Hlook_a k vol Hvol) in Hfrom. injection Hfrom as <-.
  cbn [sites]. unfold sum_in_order.
  now rewrite sites_at_app, map_app, fold_left_app.
Qed.

(** X12.  A negative index does not raise: a site whose index [i] lies in
    [[-len(grid.x), 0)] is written to the entry [len(grid.x) + i], counted
    from the end.  For a set of that one site, [calculate_probabilities]
    leaves its probability there, [calculate_defect_density] leaves
    0 + probability / volume there, with the volume of that entry, and all
    other entries are zero. *)
Theorem negative_index_counts_from_the_end self grid phi temp h xs vs ph s :
  h !! Grid.x grid = Some (Nd1 xs) ->
  h !! Grid.volumes grid = Some (Nd1 vs) ->
  length vs = length xs ->
  h !! phi = Some ph ->
  sites self = [s] ->
  (- Z.of_nat (length xs) <= index_of_grid_at_x (Nd1 xs) (Site.x s) < 0)%Z ->
  one_probability s (phi_at_x ph (Nd1 xs) (Site.x s)) temp ->
  exists arr_p arr_d vol,
    calculate_probabilities index_of_grid_at_x phi_at_x self grid phi temp h
      = (Ok (length h), h ++ [Nd1 arr_p]) /\
    calculate_defect_density index_of_grid_at_x phi_at_x self grid phi temp h
      = (Ok (length h), h ++ [Nd1 arr_d]) /\
    vs !! Z.to_nat (index_of_grid_at_x (Nd1 xs) (Site.x s) + Z.of_nat (length xs)) = Some vol /\
    arr_p !! Z.to_nat (index_of_grid_at_x (Nd1 xs) (Site.x s) + Z.of_nat (length xs))
      = Some (the_probability s (phi_at_x ph (Nd1 xs) (Site.x s)) temp) /\
    arr_d !! Z.to_nat (index_of_grid_at_x (Nd1 xs) (Site.x s) + Z.of_nat (length xs))
      = Some (0 + the_probability s (phi_at_x ph (Nd1 xs) (Site.x s)) temp / vol)%float /\
    forall k, k < length xs ->
      k <> Z.to_nat (index_of_grid_at_x (Nd1 xs) (Site.x s) + Z.of_nat (length xs)) ->
      arr_p !! k = Some 0%float /\ arr_d !! k = Some 0%float.
Proof.
  intros Hgx Hvols Hlen Hph Hsites Hi Hone.
  pose proof (nearest_negative index_of_grid_at_x (Nd1 xs) (length xs) s Hi) as Hnear.
  set (k0 := Z.to_nat (index_of_grid_at_x (Nd1 xs) (Site.x s) + Z.of_nat (length xs))) in *.
  assert (Hk0 : k0 < length xs) by (subst k0; lia).
  assert (Hss : Forall (fun s' => is_Some (nearest (Nd1 xs) (length xs) s') /\
                   one_probability s' (phi_at_x ph (Nd1 xs) (Site.x s')) temp) (sites self)).
  { rewrite Hsites. constructor; [|constructor]. split; [eauto|exact Hone]. }
  destruct (calculate_probabilities_entries _ _ self grid phi temp h xs ph Hgx Hph Hss)
    as (arr_p & Hrun_p & _ & Hlook_p).
  destruct (subgrid_calculate_defect_density_entries _ _ self grid grid phi temp h
              xs (Nd1 xs) vs ph Hgx Hgx Hvols Hlen Hph Hss) as (arr_d & Hrun_d & _ & Hlook_d).
  rewrite subgrid_on_one_grid in Hrun_d.
  destruct (lookup_lt_is_Some_2 vs k0) as [vol Hvol]; [lia|].
  exists arr_p, arr_d, vol.
  split; [exact Hrun_p|]. split; [exact Hrun_d|]. split; [exact Hvol|].
  rewrite Hsites in Hlook_p, Hlook_d.
  split; [|split].
  - rewrite (Hlook_p k0 Hk0), (sites_at_one _ _ _ k0 k0 s Hnear).
    destruct (decide (k0 = k0)); [reflexivity|congruence].
  - rewrite (Hlook_d k0 vol Hvol), (sites_at_one _ _ _ k0 k0 s Hnear).
    destruct (decide (k0 = k0)); [reflexivity|congruence].
  - intros k Hk Hne.
    destruct (lookup_lt_is_Some_2 vs k) as [vol' Hvol']; [lia|].
    rewrite (Hlook_p k Hk), (Hlook_d k vol' Hvol'), (sites_at_one _ _ _ k0 k s Hnear).
    destruct (decide (k = k0)); [congruence|]. split; reflexivity.
Qed.

(** X13.  Where numpy gives the Grid object the shape of a vector of [n]
    entries and every index addresses one of them,
    [calculate_energies_on_grid] returns an array of [n] entries in which
    an entry holds the energy of the last site written to it, and nothing
    of the energies of the sites written there before. *)
Theorem calculate_energies_on_grid_overwrites self grid phi h gx n before s after k :
  h !! Grid.x grid = Some gx ->
  np_shape_of_grid grid = Vector n ->
  Forall (fun s' => is_Some (nearest gx n s')) (sites self) ->
  sites self = before ++ s :: after ->
  nearest gx n s = Some k ->
  Forall (fun s' => nearest gx n s' <> Some k) after ->
  exists arr,
    calculate_energies_on_grid index_of_grid_at_x energy_at_x np_shape_of_grid self grid phi h
      = (Ok (length h), h ++ [Nd1 arr]) /\
    length arr = n /\
    arr !! k = Some (energy_at_x (Site.defect_energies s) gx (Site.x s)).
Proof.
  intros Hgx Hshape Hss Hsplit Hs Hafter.
  destruct (calculate_energies_on_grid_entries _ energy_at_x _ self grid phi h gx n
              Hgx Hshape Hss)
    as (arr & Hrun & Hlen & Hlook).
  exists arr. split; [exact Hrun|]. split; [exact Hlen|].
  rewrite Hlook by (eapply slot_lt; exact Hs).
  rewrite Hsplit, (sites_at_last _ _ _ _ _ _ _ Hs Hafter).
  now rewrite last_write.
Qed.

End AggregationFurther.

(** * The further properties on the scenarios *)

(** X2 on the two sites of the five-point grid: [s[-1]] is [s[1]]. *)
Lemma getitem_bounds_witness :
  __getitem__ (Scenario.two_sites 0.5 0.5) (-1)
  = __getitem__ (Scenario.two_sites 0.5 0.5) (-1 + 2) /\
  exists site, __getitem__ (Scenario.two_sites 0.5 0.5) (-1) = Ok site.
Proof.
  apply (proj1 (proj2 (getitem_bounds (Scenario.two_sites 0.5 0.5) (-1)))). cbn. lia.
Defined.

(** X3 on the sum of the two one-site sets. *)
Lemma getitem_of_sum_witness :
  exists ab,
    __add__ (mk_Set_of_Sites [Scenario.site_p 0.5])
            (PySet_of_Sites (mk_Set_of_Sites [Scenario.site_q 0.5])) = Ok ab /\
    __getitem__ ab 1 = __getitem__ (mk_Set_of_Sites [Scenario.site_q 0.5]) (1 - 1).
Proof.
  destruct (getitem_of_sum (mk_Set_of_Sites [Scenario.site_p 0.5])
              (mk_Set_of_Sites [Scenario.site_q 0.5]) 1) as (ab & Hab & _ & Hright & _).
  exists ab. split; [exact Hab|]. apply Hright. cbn. lia.
Defined.

(** X6 on the five-point grid. *)
Lemma aggregation_of_no_sites_witness :
  calculate_energies_on_grid GridAlignment.index_of_grid_at_x GridAlignment.energy_at_x
      plain_object_shape (mk_Set_of_Sites []) Scenario.grid Scenario.phi Scenario.arrays
    = (Ok 3, Scenario.arrays ++ [Nd0 0%float]) /\
  calculate_probabilities GridAlignment.index_of_grid_at_x GridAlignment.phi_at_x
      (mk_Set_of_Sites []) Scenario.grid Scenario.phi 300%float Scenario.arrays
    = (Ok 3, Scenario.arrays ++ [Nd1 [0; 0; 0; 0; 0]%float]) /\
  calculate_defect_density GridAlignment.index_of_grid_at_x GridAlignment.phi_at_x
      (mk_Set_of_Sites []) Scenario.grid Scenario.phi 300%float Scenario.arrays
    = (Ok 3, Scenario.arrays ++ [Nd1 [0; 0; 0; 0; 0]%float]) /\
  subgrid_calculate_defect_density GridAlignment.index_of_grid_at_x GridAlignment.phi_at_x
      (mk_Set_of_Sites []) Scenario.grid Scenario.grid Scenario.phi 300%float Scenario.arrays
    = (Ok 3, Scenario.arrays ++ [Nd1 [0; 0; 0; 0; 0]%float]).
Proof.
  apply (aggregation_of_no_sites GridAlignment.index_of_grid_at_x GridAlignment.phi_at_x
           GridAlignment.energy_at_x plain_object_shape (mk_Set_of_Sites [])
           Scenario.grid Scenario.grid Scenario.phi 300%float Scenario.arrays
           (Nd1 [0; 1; 2; 3; 4]%float)); reflexivity.
Defined.

(** X7 on a grid without gridpoints. *)
Lemma index_outside_grid_raises_witness :
  (calculate_probabilities GridAlignment.index_of_grid_at_x GridAlignment.phi_at_x
     (Scenario.two_sites 0.5 0.5) Scenario.grid Scenario.phi 300%float
     EdgeScenario.no_gridpoints).1 = Raise IndexError /\
  (calculate_defect_density GridAlignment.index_of_grid_at_x GridAlignment.phi_at_x
     (Scenario.two_sites 0.5 0.5) Scenario.grid Scenario.phi 300%float
     EdgeScenario.no_gridpoints).1 = Raise IndexError /\
  (subgrid_calculate_defect_density GridAlignment.index_of_grid_at_x GridAlignment.phi_at_x
     (Scenario.two_sites 0.5 0.5) Scenario.grid Scenario.grid Scenario.phi 300%float
     EdgeScenario.no_gridpoints).1 = Raise IndexError.
Proof.
  apply (index_outside_grid_raises GridAlignment.index_of_grid_at_x GridAlignment.phi_at_x
           (Scenario.two_sites 0.5 0.5) Scenario.grid Scenario.grid Scenario.phi 300%float
           EdgeScenario.no_gridpoints [] (Nd1 []) [] (Nd1 [])
           [] (Scenario.site_p 0.5) [Scenario.site_q 0.5]);
    try reflexivity.
  constructor.
Defined.

(** X8 on the five-point grid: the second site has two defect energies. *)
Lemma several_probabilities_raise_witness :
  (calculate_probabilities GridAlignment.index_of_grid_at_x GridAlignment.phi_at_x
     (mk_Set_of_Sites [Scenario.site_p 0.5; EdgeScenario.site_of_two_defects])
     Scenario.grid Scenario.phi 300%float Scenario.arrays).1
    = Raise setting_with_a_sequence /\
  (calculate_defect_density GridAlignment.index_of_grid_at_x GridAlignment.phi_at_x
     (mk_Set_of_Sites [Scenario.site_p 0.5; EdgeScenario.site_of_two_defects])
     Scenario.grid Scenario.phi 300%float Scenario.arrays).1
    = Raise setting_with_a_sequence /\
  (subgrid_calculate_defect_density GridAlignment.index_of_grid_at_x GridAlignment.phi_at_x
     (mk_Set_of_Sites [Scenario.site_p 0.5; EdgeScenario.site_of_two_defects])
     Scenario.grid Scenario.grid Scenario.phi 300%float Scenario.arrays).1
    = Raise setting_with_a_sequence.
Proof.
  apply (several_probabilities_raise GridAlignment.index_of_grid_at_x GridAlignment.phi_at_x
           (mk_Set_of_Sites [Scenario.site_p 0.5; EdgeScenario.site_of_two_defects])
           Scenario.grid Scenario.grid Scenario.phi 300%float Scenario.arrays
           [0; 1; 2; 3; 4]%float (Nd1 [0; 1; 2; 3; 4]%float) [1; 1; 1; 1; 1]%float
           (Nd1 [0; 0; 0; 0; 0]%float)
           [Scenario.site_p 0.5] EdgeScenario.site_of_two_defects []);
    try reflexivity.
  - repeat constructor; vm_compute; eauto.
  - vm_compute. eauto.
  - cbn. lia.
  - cbn. lia.
Defined.

(** X9 on the five-point grid, with the probabilities 0.2 and 0.9. *)
Lemma probabilities_are_zero_or_of_a_site_witness :
  exists arr,
    calculate_probabilities GridAlignment.index_of_grid_at_x GridAlignment.phi_at_x
      (Scenario.two_sites 0.2 0.9) Scenario.grid Scenario.phi 300%float Scenario.arrays
    = (Ok 3, Scenario.arrays ++ [Nd1 arr]) /\
    Forall (fun e => (0 <=? e)%float = true /\ (e <=? 1)%float = true) arr.
Proof.
  destruct (probabilities_are_zero_or_of_a_site
              GridAlignment.index_of_grid_at_x GridAlignment.phi_at_x
              (Scenario.two_sites 0.2 0.9) Scenario.grid Scenario.phi 300%float
              Scenario.arrays [0; 1; 2; 3; 4]%float (Nd1 [0; 0; 0; 0; 0]%float))
    as (arr & Hrun & _ & Hunit).
  - reflexivity.
  - reflexivity.
  - repeat constructor; vm_compute; eauto.
  - exists arr. split; [exact Hrun|]. apply Hunit.
    repeat constructor; vm_compute; reflexivity.
Defined.

(** X10 on the sum of the two one-site sets: the site of [b] is written to
    position 1, so the entry is the one of [b]. *)
Lemma calculate_probabilities_of_sum_witness :
  exists ab arr_b arr_ab,
    __add__ (mk_Set_of_Sites [Scenario.site_p 0.2])
            (PySet_of_Sites (mk_Set_of_Sites [Scenario.site_q 0.9])) = Ok ab /\
    calculate_probabilities GridAlignment.index_of_grid_at_x GridAlignment.phi_at_x
      (mk_Set_of_Sites [Scenario.site_q 0.9]) Scenario.grid Scenario.phi 300%float
      Scenario.arrays = (Ok 3, Scenario.arrays ++ [Nd1 arr_b]) /\
    calculate_probabilities GridAlignment.index_of_grid_at_x GridAlignment.phi_at_x
      ab Scenario.grid Scenario.phi 300%float Scenario.arrays
      = (Ok 3, Scenario.arrays ++ [Nd1 arr_ab]) /\
    arr_ab !! 1 = arr_b !! 1.
Proof.
  destruct (calculate_probabilities_of_sum
              GridAlignment.index_of_grid_at_x GridAlignment.phi_at_x
              (mk_Set_of_Sites [Scenario.site_p 0.2]) (mk_Set_of_Sites [Scenario.site_q 0.9])
              Scenario.grid Scenario.phi 300%float
              Scenario.arrays [0; 1; 2; 3; 4]%float (Nd1 [0; 0; 0; 0; 0]%float))
    as (ab & arr_a & arr_b & arr_ab & Hab & _ & Hrun_b & Hrun_ab & Hlook).
  - reflexivity.
  - reflexivity.
  - repeat constructor; vm_compute; eauto.
  - repeat constructor; vm_compute; eauto.
  - exists ab, arr_b, arr_ab. split; [exact Hab|]. split; [exact Hrun_b|].
    split; [exact Hrun_ab|]. apply (Hlook 1). cbn. lia.
Defined.

(** X11 on the same sum, with the probabilities 0.5: the entry of [a] at
    position 1 is 0.5, and 0.5 / 1 is added to it. *)
Lemma calculate_defect_density_of_sum_witness :
  exists ab arr_a arr_ab,
    __add__ (mk_Set_of_Sites [Scenario.site_p 0.5])
            (PySet_of_Sites (mk_Set_of_Sites [Scenario.site_q 0.5])) = Ok ab /\
    calculate_defect_density GridAlignment.index_of_grid_at_x GridAlignment.phi_at_x
      (mk_Set_of_Sites [Scenario.site_p 0.5]) Scenario.grid Scenario.phi 300%float
      Scenario.arrays = (Ok 3, Scenario.arrays ++ [Nd1 arr_a]) /\
    calculate_defect_density GridAlignment.index_of_grid_at_x GridAlignment.phi_at_x
      ab Scenario.grid Scenario.phi 300%float Scenario.arrays
      = (Ok 3, Scenario.arrays ++ [Nd1 arr_ab]) /\
    forall from_a, arr_a !! 1 = Some from_a ->
      arr_ab !! 1 = Some (from_a + 0.5 / 1)%float.
Proof.
  destruct (calculate_defect_density_of_sum
              GridAlignment.index_of_grid_at_x GridAlignment.phi_at_x
              (mk_Set_of_Sites [Scenario.site_p 0.5]) (mk_Set_of_Sites [Scenario.site_q 0.5])
              Scenario.grid Scenario.phi 300%float
              Scenario.arrays [0; 1; 2; 3; 4]%float [1; 1; 1; 1; 1]%float
              (Nd1 [0; 0; 0; 0; 0]%float))
    as (ab & arr_a & arr_ab & Hab & Hrun_a & Hrun_ab & Hlook).
  - reflexivity.
  - reflexivity.
  - reflexivity.
  - reflexivity.
  - repeat constructor; vm_compute; eauto.
  - repeat constructor; vm_compute; eauto.
  - exists ab, arr_a, arr_ab. split; [exact Hab|]. split; [exact Hrun_a|].
    split; [exact Hrun_ab|]. intros from_a Hfrom.
    exact (Hlook 1 1%float from_a eq_refl Hfrom).
Defined.

(** X12 on the five-point grid with an index function that answers -1: the
    site is written to the last entry, 4. *)
Lemma negative_index_counts_from_the_end_witness :
  exists arr_p arr_d,
    calculate_probabilities EdgeScenario.index_minus_one GridAlignment.phi_at_x
      (mk_Set_of_Sites [Scenario.site_p 0.5]) Scenario.grid Scenario.phi 300%float
      Scenario.arrays = (Ok 3, Scenario.arrays ++ [Nd1 arr_p]) /\
    calculate_defect_density EdgeScenario.index_minus_one GridAlignment.phi_at_x
      (mk_Set_of_Sites [Scenario.site_p 0.5]) Scenario.grid Scenario.phi 300%float
      Scenario.arrays = (Ok 3, Scenario.arrays ++ [Nd1 arr_d]) /\
    arr_p !! 4 = Some 0.5%float /\
    arr_d !! 4 = Some (0 + 0.5 / 1)%float.
Proof.
  destruct (negative_index_counts_from_the_end
              EdgeScenario.index_minus_one GridAlignment.phi_at_x
              (mk_Set_of_Sites [Scenario.site_p 0.5]) Scenario.grid Scenario.phi 300%float
              Scenario.arrays [0; 1; 2; 3; 4]%float [1; 1; 1; 1; 1]%float
              (Nd1 [0; 0; 0; 0; 0]%float) (Scenario.site_p 0.5))
    as (arr_p & arr_d & vol & Hrun_p & Hrun_d & Hvol & Hp & Hd & _).
  - reflexivity.
  - reflexivity.
  - reflexivity.
  - reflexivity.
  - reflexivity.
  - unfold EdgeScenario.index_minus_one. cbn. lia.
  - reflexivity.
  - exists arr_p, arr_d. split; [exact Hrun_p|]. split; [exact Hrun_d|].
    cbn in Hvol. injection Hvol as <-. split; [exact Hp|exact Hd].
Defined.

(** X13 on the five-point grid with a Grid that numpy takes for a vector of
    five entries: position 1 holds 0.4, the energy of the second site. *)
Lemma calculate_energies_on_grid_overwrites_witness :
  exists arr,
    calculate_energies_on_grid GridAlignment.index_of_grid_at_x GridAlignment.energy_at_x
      EdgeScenario.vector_of_five (Scenario.two_sites 0.5 0.5) Scenario.grid Scenario.phi
      Scenario.arrays = (Ok 3, Scenario.arrays ++ [Nd1 arr]) /\
    length arr = 5 /\
    arr !! 1 = Some 0.4%float.
Proof.
  destruct (calculate_energies_on_grid_overwrites
              GridAlignment.index_of_grid_at_x GridAlignment.energy_at_x
              EdgeScenario.vector_of_five (Scenario.two_sites 0.5 0.5) Scenario.grid
              Scenario.phi Scenario.arrays (Nd1 [0; 1; 2; 3; 4]%float) 5
              [Scenario.site_p 0.5] (Scenario.site_q 0.5) [] 1)
    as (arr & Hrun & Hlen & Hk).
  - reflexivity.
  - reflexivity.
  - repeat constructor; vm_compute; eauto.
  - reflexivity.
  - vm_compute. reflexivity.
  - constructor.
  - exists arr. split; [exact Hrun|]. split; [exact Hlen|].
    rewrite Hk. vm_compute. reflexivity.
Defined.
